(** * ai-todo-manager: the AI request handlers and their helpers

    A shallow embedding of
      - [validateInput], [preprocessInput], [postprocessTodo] and the
        [POST] handler of the generate-todo route,
      - the [POST] handler of the analyze-todos route and its statistics,
      - [getWeekTodos] and [getStats] of the [TodoSummary] component,
    followed by the properties the specification states about them. *)

From Stdlib Require Import ZArith NArith List Bool Lia String Ascii.
From Stdlib Require Import Floats.SpecFloat.
From Stdlib Require Import DecimalString.
Import ListNotations.

Set Implicit Arguments.

(* ===================================================================== *)
(** ** JavaScript strings                                                  *)
(* ===================================================================== *)

(** A JavaScript string is a sequence of UTF-16 code units; [length],
    [trim], [substring], [includes] and regular expressions without the
    [u] flag all work on code units. *)
Module JsString.

Definition char := N.
Definition jsstring := list char.

(** [s.length] *)
Definition strlen (s : jsstring) : nat := List.length s.

Definition char_eqb (a b : char) : bool := N.eqb a b.

Fixpoint eqb (a b : jsstring) : bool :=
  match a, b with
  | [], [] => true
  | x :: a', y :: b' => char_eqb x y && eqb a' b'
  | _, _ => false
  end.

(** Literals of the source that are plain ASCII. *)
Fixpoint lit (s : string) : jsstring :=
  match s with
  | EmptyString => []
  | String c s' => N_of_ascii c :: lit s'
  end.

Definition in_range (lo hi c : N) : bool := (lo <=? c)%N && (c <=? hi)%N.

(** [WhiteSpace] and [LineTerminator] of ECMAScript: what
    [String.prototype.trim] strips and what [\s] matches. *)
Definition isWhiteSpace (c : char) : bool :=
  in_range 9 13 c            (* TAB LF VT FF CR *)
  || N.eqb c 32              (* SPACE *)
  || N.eqb c 160             (* NO-BREAK SPACE *)
  || N.eqb c 5760            (* U+1680 *)
  || in_range 8192 8202 c    (* U+2000 .. U+200A *)
  || N.eqb c 8232            (* U+2028 LINE SEPARATOR *)
  || N.eqb c 8233            (* U+2029 PARAGRAPH SEPARATOR *)
  || N.eqb c 8239            (* U+202F *)
  || N.eqb c 8287            (* U+205F *)
  || N.eqb c 12288           (* U+3000 *)
  || N.eqb c 65279.          (* U+FEFF *)

Definition LF : char := 10%N.
Definition SPACE : char := 32%N.
Definition isNewline (c : char) : bool := N.eqb c LF.

Fixpoint dropWhile (p : char -> bool) (s : jsstring) : jsstring :=
  match s with
  | [] => []
  | c :: s' => if p c then dropWhile p s' else s
  end.

Definition trimStart (s : jsstring) : jsstring := dropWhile isWhiteSpace s.
Definition trimEnd (s : jsstring) : jsstring :=
  rev (dropWhile isWhiteSpace (rev s)).

(** [s.trim()] *)
Definition trim (s : jsstring) : jsstring := trimEnd (trimStart s).

(** [s.substring(0, n)] *)
Definition substring0 (n : nat) (s : jsstring) : jsstring := firstn n s.

Fixpoint startsWith (p s : jsstring) : bool :=
  match p, s with
  | [], _ => true
  | x :: p', y :: s' => char_eqb x y && startsWith p' s'
  | _ :: _, [] => false
  end.

(** [s.includes(p)] *)
Fixpoint includes (p s : jsstring) : bool :=
  startsWith p s ||
  match s with
  | [] => false
  | _ :: s' => includes p s'
  end.

(** [s.replace(/c+/g, r)] for a character class [c]: every maximal run
    of characters of the class becomes the single character [r].
    [inrun] records that the previous character belonged to a run that
    has already been replaced. *)
Fixpoint replaceRuns (cls : char -> bool) (r : char) (inrun : bool)
         (s : jsstring) : jsstring :=
  match s with
  | [] => []
  | c :: s' =>
      if cls c
      then if inrun then replaceRuns cls r true s'
           else r :: replaceRuns cls r true s'
      else c :: replaceRuns cls r false s'
  end.

(** [s.split(sep)[0]] for a one-character separator. *)
Fixpoint beforeFirst (sep : char) (s : jsstring) : jsstring :=
  match s with
  | [] => []
  | c :: s' => if char_eqb c sep then [] else c :: beforeFirst sep s'
  end.

End JsString.
Import JsString.

(* ===================================================================== *)
(** ** generate-todo route: input sanitizer                                *)
(* ===================================================================== *)

(** A value as it arrives in a parsed JSON body where the handler expects
    a string: either a string or something else ([undefined], [null], a
    number, an object...). *)
Inductive JsArg :=
| JString (s : jsstring)
| JOther.

(** The four messages [validateInput] can return. *)
Inductive ValidationError :=
| ErrInvalid      (* '유효한 할 일 내용을 입력해주세요.' *)
| ErrTooShort     (* '할 일 내용이 너무 짧습니다. 최소 2자 이상 입력해주세요.' *)
| ErrTooLong      (* '할 일 내용이 너무 깁니다. 최대 500자까지 입력 가능합니다.' *)
| ErrNoContent.   (* '할 일 내용에 유효한 문자가 포함되어야 합니다.' *)

Record Validation := { valid : bool; error : option ValidationError }.

Definition invalid (e : ValidationError) : Validation :=
  {| valid := false; error := Some e |}.
Definition ok : Validation := {| valid := true; error := None |}.
(** [validation.error] *)
Definition validationError (v : Validation) : option ValidationError := error v.

(** The character class [[가-힣a-zA-Z0-9]]: Hangul syllables U+AC00..U+D7A3,
    ASCII letters and digits. *)
Definition isValidContentChar (c : char) : bool :=
  in_range 44032 55203 c
  || in_range 97 122 c
  || in_range 65 90 c
  || in_range 48 57 c.

(** [/[가-힣a-zA-Z0-9]/.test(s)] *)
Definition hasValidContent (s : jsstring) : bool := existsb isValidContentChar s.

Definition validateInput (text : JsArg) : Validation :=
  match text with
  | JOther => invalid ErrInvalid
  | JString s =>
      (* [!text]: the empty string is falsy *)
      if (strlen s =? 0)%nat then invalid ErrInvalid
      else
        let trimmed := trim s in
        if (strlen trimmed <? 2)%nat then invalid ErrTooShort
        else if (500 <? strlen s)%nat then invalid ErrTooLong
        else if negb (hasValidContent trimmed) then invalid ErrNoContent
        else ok
  end.

Definition preprocessInput (text : jsstring) : jsstring :=
  let processed := trim text in
  let processed := replaceRuns isWhiteSpace SPACE false processed in
  let processed := replaceRuns isNewline LF false processed in
  processed.

(* ===================================================================== *)
(** ** JavaScript dates                                                    *)
(* ===================================================================== *)

Local Open Scope Z_scope.

(** A [Date] is its time value: milliseconds since the epoch, or [None]
    for an Invalid Date (time value NaN). *)
Definition JsDate := option Z.

Definition msPerDay : Z := 86400000.
Definition msPerHour : Z := 3600000.
Definition msPerMinute : Z := 60000.
Definition msPerSecond : Z := 1000.

(** Relational comparison of two [Date] objects: both are converted to
    their time values, and every comparison with NaN is false. *)
Definition date_lt (a b : JsDate) : bool :=
  match a, b with Some x, Some y => x <? y | _, _ => false end.
Definition date_le (a b : JsDate) : bool :=
  match a, b with Some x, Some y => x <=? y | _, _ => false end.
Definition date_ge (a b : JsDate) : bool := date_le b a.

(** Days since the epoch of a proleptic Gregorian civil date. *)
Definition daysFromCivil (y m d : Z) : Z :=
  let y' := if m <=? 2 then y - 1 else y in
  let era := y' / 400 in
  let yoe := y' - era * 400 in
  let mp := if 2 <? m then m - 3 else m + 9 in
  let doy := (153 * mp + 2) / 5 + d - 1 in
  let doe := yoe * 365 + yoe / 4 - yoe / 100 + doy in
  era * 146097 + doe - 719468.

(** The civil date (year, month, day) of a day number. *)
Definition civilFromDays (z : Z) : Z * Z * Z :=
  let z := z + 719468 in
  let era := z / 146097 in
  let doe := z - era * 146097 in
  let yoe := (doe - doe / 1460 + doe / 36524 - doe / 146096) / 365 in
  let y := yoe + era * 400 in
  let doy := doe - (365 * yoe + yoe / 4 - yoe / 100) in
  let mp := (5 * doy + 2) / 153 in
  let d := doy - (153 * mp + 2) / 5 + 1 in
  let m := if mp <? 10 then mp + 3 else mp - 9 in
  (if m <=? 2 then y + 1 else y, m, d).

Definition isLeapYear (y : Z) : bool :=
  ((y mod 4 =? 0) && negb (y mod 100 =? 0)) || (y mod 400 =? 0).

Definition daysInMonth (y m : Z) : Z :=
  if m =? 2 then (if isLeapYear y then 29 else 28)
  else if (m =? 4) || (m =? 6) || (m =? 9) || (m =? 11) then 30
  else 31.

(** *** The ECMAScript date-time string format *)

Definition digit (c : char) : option Z :=
  if in_range 48 57 c then Some (Z.of_N c - 48) else None.

(** Exactly [n] decimal digits at the head of [s]. *)
Fixpoint digits (n : nat) (acc : Z) (s : jsstring) : option (Z * jsstring) :=
  match n with
  | O => Some (acc, s)
  | S n' =>
      match s with
      | c :: s' =>
          match digit c with
          | Some v => digits n' (10 * acc + v) s'
          | None => None
          end
      | [] => None
      end
  end.

Definition expect (c : char) (s : jsstring) : option jsstring :=
  match s with
  | x :: s' => if char_eqb x c then Some s' else None
  | [] => None
  end.

Definition ch (a : ascii) : char := N_of_ascii a.

(** [YYYY-MM-DD] with a month of the year and a day of that month. *)
Definition parseDatePart (s : jsstring) : option (Z * jsstring) :=
  match digits 4 0 s with
  | Some (y, s1) =>
    match expect (ch "-") s1 with
    | Some s2 =>
      match digits 2 0 s2 with
      | Some (m, s3) =>
        match expect (ch "-") s3 with
        | Some s4 =>
          match digits 2 0 s4 with
          | Some (d, s5) =>
              if (1 <=? m) && (m <=? 12) && (1 <=? d) && (d <=? daysInMonth y m)
              then Some (daysFromCivil y m d, s5) else None
          | None => None
          end
        | None => None
        end
      | None => None
      end
    | None => None
    end
  | None => None
  end.

(** [HH:mm], [HH:mm:ss] or [HH:mm:ss.sss]: milliseconds within the day. *)
Definition parseTimePart (s : jsstring) : option (Z * jsstring) :=
  match digits 2 0 s with
  | Some (h, s1) =>
    match expect (ch ":") s1 with
    | Some s2 =>
      match digits 2 0 s2 with
      | Some (mi, s3) =>
          if (h <=? 23) && (mi <=? 59) then
            let hm := h * msPerHour + mi * msPerMinute in
            match expect (ch ":") s3 with
            | Some s4 =>
              match digits 2 0 s4 with
              | Some (sec, s5) =>
                  if sec <=? 59 then
                    match expect (ch ".") s5 with
                    | Some s6 =>
                      match digits 3 0 s6 with
                      | Some (ms, s7) => Some (hm + sec * msPerSecond + ms, s7)
                      | None => None
                      end
                    | None => Some (hm + sec * msPerSecond, s5)
                    end
                  else None
              | None => None
              end
            | None => Some (hm, s3)
            end
          else None
      | None => None
      end
    | None => None
    end
  | None => None
  end.

(** The UTC offset designator that ends a date-time: [Z], [+HH:mm] or
    [-HH:mm]; the result is the offset in milliseconds, [None] inside
    when the designator is absent (local time). *)
Definition parseOffset (s : jsstring) : option (option Z) :=
  match s with
  | [] => Some None
  | c :: s' =>
      if char_eqb c (ch "Z") then
        match s' with [] => Some (Some 0) | _ => None end
      else if char_eqb c (ch "+") || char_eqb c (ch "-") then
        match digits 2 0 s' with
        | Some (h, s1) =>
          match expect (ch ":") s1 with
          | Some s2 =>
            match digits 2 0 s2 with
            | Some (mi, []) =>
                if (h <=? 23) && (mi <=? 59) then
                  let off := h * msPerHour + mi * msPerMinute in
                  Some (Some (if char_eqb c (ch "-") then - off else off))
                else None
            | _ => None
            end
          | None => None
          end
        | None => None
        end
      else None
  end.

Section Runtime.

(** The offset of the runtime's local time zone from UTC in milliseconds
    (east positive); the zone is taken to have a fixed offset, as the
    UTC+9 zone of the deployment has. *)
Variable tz : Z.

(** What the engine's fallback parser makes of a string that is not in
    the date-time string format above (the standard leaves it to the
    implementation). *)
Variable legacyParse : jsstring -> JsDate.

(** The standard format: a date-only form is UTC, a date-time form
    without offset is local time. *)
Definition parseIso (s : jsstring) : option Z :=
  match parseDatePart s with
  | Some (days, []) => Some (days * msPerDay)
  | Some (days, c :: rest) =>
      if char_eqb c (ch "T") then
        match parseTimePart rest with
        | Some (t, rest') =>
            match parseOffset rest' with
            | Some (Some off) => Some (days * msPerDay + t - off)
            | Some None => Some (days * msPerDay + t - tz)
            | None => None
            end
        | None => None
        end
      else None
  | None => None
  end.

(** [new Date(s)]; the empty string is unrecognisable to every parser
    and gives an Invalid Date. *)
Definition newDate (s : jsstring) : JsDate :=
  match s with
  | [] => None
  | _ =>
      match parseIso s with
      | Some t => Some t
      | None => legacyParse s
      end
  end.

(** The local day number of a time value. *)
Definition localDay (t : Z) : Z := (t + tz) / msPerDay.

(** [d.setHours(h, m, s, ms)]: the same local day at the given time. *)
Definition setHours (h m s ms : Z) (d : JsDate) : JsDate :=
  match d with
  | Some t =>
      Some (localDay t * msPerDay
            + h * msPerHour + m * msPerMinute + s * msPerSecond + ms - tz)
  | None => None
  end.

(** [d.getDay()]: 0 is Sunday; the epoch was a Thursday. *)
Definition getDay (t : Z) : Z := (localDay t + 4) mod 7.

(** [d.getHours()] *)
Definition getHours (t : Z) : Z := ((t + tz) mod msPerDay) / msPerHour.

(** [d.setDate(d.getDate() + k)]: the day of the month is set [k] days
    away and the date is normalised, which moves the local date by [k]
    days and keeps the time within the day. *)
Definition addDays (k : Z) (d : JsDate) : JsDate :=
  match d with
  | Some t => Some (t + k * msPerDay)
  | None => None
  end.

End Runtime.

(** *** Rendering *)

Definition digitChar (v : Z) : char := Z.to_N (48 + v mod 10).

Fixpoint padded (n : nat) (v : Z) : jsstring :=
  match n with
  | O => []
  | S n' => padded n' (v / 10) ++ [digitChar v]
  end.

(** [d.toISOString().split('T')[0]]: the UTC civil date of a time value
    as [YYYY-MM-DD] (the expanded form [±YYYYYY-MM-DD] outside the years
    0000..9999). *)
Definition isoDate (t : Z) : jsstring :=
  let '(y, m, d) := civilFromDays (t / msPerDay) in
  let year :=
    if (0 <=? y) && (y <=? 9999) then padded 4 y
    else (if y <? 0 then ch "-" else ch "+") :: padded 6 (Z.abs y) in
  year ++ [ch "-"] ++ padded 2 m ++ [ch "-"] ++ padded 2 d.

(* ===================================================================== *)
(** ** generate-todo route: repair pass                                    *)
(* ===================================================================== *)

(** The object the model returns. The schema promises the fields'
    types; every field is optional here so that the empty object and a
    missing [priority] or [category] are covered. *)
Record GeneratedTodo := {
  title : option jsstring;
  description : option jsstring;
  due_date : option jsstring;
  due_time : option jsstring;
  priority : option jsstring;
  category : option (list jsstring)
}.

(** Truthiness of an optional string: [undefined] and [''] are falsy. *)
Definition truthy (v : option jsstring) : bool :=
  match v with
  | Some (_ :: _) => true
  | _ => false
  end.

(** '할 일' *)
Definition fallbackTitle : jsstring := [54624; 32; 51068]%N.
(** '개인' *)
Definition defaultCategory : jsstring := [44060; 51064]%N.

Definition validPriorities : list jsstring := [lit "low"; lit "medium"; lit "high"].

Definition arrayIncludes (xs : list jsstring) (x : jsstring) : bool :=
  existsb (JsString.eqb x) xs.

(** [/^([0-1][0-9]|2[0-3]):[0-5][0-9]$/.test(s)] *)
Definition timeRegex (s : jsstring) : bool :=
  match s with
  | [h1; h2; c; m1; m2] =>
      ((in_range 48 49 h1 && in_range 48 57 h2)
       || (N.eqb h1 50 && in_range 48 51 h2))
      && N.eqb c 58
      && in_range 48 53 m1 && in_range 48 57 m2
  | _ => false
  end.

Section RepairPass.

Variable tz : Z.
Variable legacyParse : jsstring -> JsDate.

Definition postprocessTodo (todo : GeneratedTodo) (currentDate : jsstring)
  : GeneratedTodo :=
  (* 1. title *)
  let title1 :=
    match title todo with
    | Some ((_ :: _) as t) =>
        let t := trim t in
        let t := if (100 <? strlen t)%nat
                 then substring0 97 t ++ lit "..." else t in
        if (strlen t <? 2)%nat then fallbackTitle else t
    | _ => fallbackTitle
    end in
  (* 2. description *)
  let description1 :=
    match description todo with
    | Some ((_ :: _) as d) =>
        let d := trim d in
        if (strlen d =? 0)%nat then None else Some d
    | other => other
    end in
  (* 3. past due date *)
  let due_date1 :=
    match due_date todo with
    | Some ((_ :: _) as s) =>
        let dueDate := newDate tz legacyParse s in
        let today := newDate tz legacyParse currentDate in
        let today := setHours tz 0 0 0 0 today in
        let dueDate := setHours tz 0 0 0 0 dueDate in
        if date_lt dueDate today then Some currentDate else Some s
    | other => other
    end in
  (* 4. priority *)
  let priority1 :=
    match priority todo with
    | Some ((_ :: _) as p) =>
        if arrayIncludes validPriorities p then p else lit "medium"
    | _ => lit "medium"
    end in
  (* 5. category *)
  let category1 :=
    match category todo with
    | Some ((_ :: _) as c) => c
    | _ => [defaultCategory]
    end in
  (* 6. due time *)
  let due_time1 :=
    match due_time todo with
    | Some ((_ :: _) as t) =>
        if timeRegex t then Some t else Some (lit "09:00")
    | other => other
    end in
  {| title := Some title1;
     description := description1;
     due_date := due_date1;
     due_time := due_time1;
     priority := Some priority1;
     category := Some category1 |}.

End RepairPass.

Definition emptyObject : GeneratedTodo :=
  {| title := None; description := None; due_date := None;
     due_time := None; priority := None; category := None |}.

(* ===================================================================== *)
(** ** Effects of a request handler                                        *)
(* ===================================================================== *)

(** An exception value as the handlers inspect it: [error?.name],
    [error?.message] and [error?.code]; a field that is missing (or the
    thrown value being [null]) reads as [None]. The fields that are
    present are strings, as those of [Error] objects are: a thrown value
    whose [message] is of another type, on which [message?.includes] is
    no function and the catch block itself throws, is not represented. *)
Record JsError := {
  name : option jsstring;
  message : option jsstring;
  code : option jsstring
}.

Definition nameIs (e : JsError) (s : string) : bool :=
  match name e with Some n => JsString.eqb n (lit s) | None => false end.
Definition codeIs (e : JsError) (s : string) : bool :=
  match code e with Some c => JsString.eqb c (lit s) | None => false end.
(** [error?.message?.includes(s)] *)
Definition messageIncludes (e : JsError) (s : string) : bool :=
  match message e with Some m => includes (lit s) m | None => false end.

(** A handler runs in a monad of exceptions over a counter of the calls
    made to the Generative Model Gateway; the counter survives a throw. *)
Module Handler.

Definition M (A : Type) : Type := nat -> (JsError + A) * nat.

Definition ret {A} (a : A) : M A := fun n => (inr a, n).

Definition bind {A B} (m : M A) (k : A -> M B) : M B :=
  fun n =>
    match m n with
    | (inr a, n') => k a n'
    | (inl e, n') => (inl e, n')
    end.

Definition throw {A} (e : JsError) : M A := fun n => (inl e, n).

(** [await] of a promise that has settled one way or the other. *)
Definition await {A} (r : JsError + A) : M A := fun n => (r, n).

(** [try { body } catch (error) { handler }] *)
Definition tryCatch {A} (body : M A) (handler : JsError -> M A) : M A :=
  fun n =>
    match body n with
    | (inl e, n') => handler e n'
    | (inr a, n') => (inr a, n')
    end.

(** [await generateObject({ model, schema, prompt })]: one call to the
    gateway, which returns an object or throws. *)
Definition callGateway {P R} (gateway : P -> JsError + R) (p : P) : M R :=
  fun n => (gateway p, S n).

(** Run a handler from a fresh request: its outcome and the number of
    gateway calls it made. *)
Definition run {A} (m : M A) : (JsError + A) * nat := m O.

End Handler.

Declare Scope handler_scope.
Notation "x <- m ;; k" := (Handler.bind m (fun x => k))
  (at level 61, m at next level, right associativity) : handler_scope.

(** What a deployment provides to a handler. *)
Record Env (P R : Type) := {
  (** [process.env.GOOGLE_GENERATIVE_AI_API_KEY] *)
  apiKey : option jsstring;
  (** [new Date()]: the current instant *)
  now : Z;
  (** the local zone offset and the engine's fallback date parser *)
  zone : Z;
  legacyParse : jsstring -> JsDate;
  (** the Generative Model Gateway *)
  generateObject : P -> JsError + R
}.

Definition kstOffset : Z := 9 * 60.
(** [new Date(now.getTime() + kstOffset * 60 * 1000)] *)
Definition kstTime (now : Z) : Z := now + kstOffset * 60 * 1000.
(** [kstTime.toISOString().split('T')[0]] *)
Definition currentDateOf (now : Z) : jsstring := isoDate (kstTime now).
(** [d.getUTCDay()] *)
Definition getUTCDay (t : Z) : Z := (t / msPerDay + 4) mod 7.

(* ===================================================================== *)
(** ** POST /api/ai/generate-todo                                          *)
(* ===================================================================== *)

Module GenerateTodo.

Inductive ErrorText :=
| Rejected (e : ValidationError)
| BadInput          (* '잘못된 입력입니다.' *)
| NotConfigured     (* 'AI 서비스 설정이 완료되지 않았습니다.' *)
| BadJson           (* '요청 데이터 형식이 올바르지 않습니다.' *)
| AuthFailed        (* 'AI 서비스 인증에 실패했습니다. 관리자에게 문의해주세요.' *)
| QuotaExceeded     (* 'AI 서비스 사용량을 초과했습니다. 잠시 후 다시 시도해주세요.' *)
| TimedOut          (* '요청 시간이 초과되었습니다. 다시 시도해주세요.' *)
| NetworkDown       (* '네트워크 연결에 실패했습니다. 인터넷 연결을 확인해주세요.' *)
| ModelFailed       (* 'AI 처리 중 오류가 발생했습니다. 다시 시도해주세요.' *)
| Failed.           (* '할 일 생성 중 오류가 발생했습니다. 잠시 후 다시 시도해주세요.' *)

Record Response := {
  status : Z;
  success : bool;
  data : option GeneratedTodo;
  error : option ErrorText
}.

Definition failure (st : Z) (e : ErrorText) : Response :=
  {| status := st; success := false; data := None; error := Some e |}.
(** [NextResponse.json] without an explicit status answers 200. *)
Definition succeeded (d : GeneratedTodo) : Response :=
  {| status := 200; success := true; data := Some d; error := None |}.

(** The request, as far as the handler reads it: the outcome of
    [await request.json()] followed by the destructuring of [prompt],
    an exception thrown by either or the value found. *)
Record Request := { body : JsError + JsArg }.

(** The values interpolated into the fixed instruction text. *)
Record Prompt := {
  processedPrompt : jsstring;
  currentDate : jsstring;
  dayOfWeek : Z;
  tomorrowDate : jsstring;
  dayAfterTomorrowDate : jsstring;
  thisFridayDate : jsstring;
  nextMondayDate : jsstring
}.

Definition buildPrompt (processed : jsstring) (now : Z) : Prompt :=
  let kst := kstTime now in
  let currentDay := getUTCDay kst in
  let daysUntilFriday := (5 - currentDay + 7) mod 7 in
  let daysUntilNextMonday :=
    if (8 - currentDay) mod 7 =? 0 then 7 else (8 - currentDay) mod 7 in
  {| processedPrompt := processed;
     currentDate := isoDate kst;
     dayOfWeek := currentDay;
     tomorrowDate := isoDate (kst + 1 * msPerDay);
     dayAfterTomorrowDate := isoDate (kst + 2 * msPerDay);
     thisFridayDate :=
       isoDate (kst + (if daysUntilFriday =? 0 then 7 else daysUntilFriday)
                      * msPerDay);
     nextMondayDate := isoDate (kst + daysUntilNextMonday * msPerDay) |}.

(** The five recognisers of the [catch] block, and the one for a
    malformed request that precedes them. *)
Definition isJsonError (e : JsError) : bool :=
  nameIs e "SyntaxError" || messageIncludes e "JSON".
Definition isAuthError (e : JsError) : bool :=
  messageIncludes e "API key" || messageIncludes e "authentication".
Definition isQuotaError (e : JsError) : bool :=
  messageIncludes e "quota" || messageIncludes e "rate limit"
  || messageIncludes e "429".
Definition isTimeoutError (e : JsError) : bool :=
  messageIncludes e "timeout" || codeIs e "ETIMEDOUT".
Definition isNetworkError (e : JsError) : bool :=
  codeIs e "ECONNREFUSED" || codeIs e "ENOTFOUND".
Definition isModelError (e : JsError) : bool :=
  messageIncludes e "model" || messageIncludes e "gemini".

(** The [catch] block. *)
Definition onError (e : JsError) : Response :=
  if isJsonError e then failure 400 BadJson
  else if isAuthError e then failure 401 AuthFailed
  else if isQuotaError e then failure 429 QuotaExceeded
  else if isTimeoutError e then failure 504 TimedOut
  else if isNetworkError e then failure 503 NetworkDown
  else if isModelError e then failure 500 ModelFailed
  else failure 500 Failed.

(** [prompt.trim()] on a value that is not a string. *)
Definition notAString : JsError :=
  {| name := Some (lit "TypeError"); message := None; code := None |}.

Local Open Scope handler_scope.

Definition POST (env : Env Prompt GeneratedTodo) (request : Request)
  : Handler.M Response :=
  Handler.tryCatch
    (prompt <- Handler.await (body request) ;;
     let validation := validateInput prompt in
     if negb (valid validation) then
       Handler.ret
         (failure 400
            match validationError validation with
            | Some e => Rejected e
            | None => BadInput
            end)
     else
       processed <-
         match prompt with
         | JString p => Handler.ret (preprocessInput p)
         | JOther => Handler.throw notAString
         end ;;
       if negb (truthy (apiKey env)) then
         Handler.ret (failure 500 NotConfigured)
       else
         let request := buildPrompt processed (now env) in
         result <- Handler.callGateway (generateObject env) request ;;
         let processedTodo :=
           postprocessTodo (zone env) (legacyParse env) result
                           (currentDate request) in
         Handler.ret (succeeded processedTodo))
    (fun e => Handler.ret (onError e)).

End GenerateTodo.

(* ===================================================================== *)
(** ** Todo records                                                        *)
(* ===================================================================== *)

Module Todo.

Record t := {
  title : jsstring;
  created_date : option jsstring;
  due_date : option jsstring;
  priority : jsstring;
  category : list jsstring;
  completed : bool
}.

End Todo.

Definition count {A} (p : A -> bool) (l : list A) : nat :=
  List.length (filter p l).

(* ===================================================================== *)
(** ** POST /api/ai/analyze-todos                                          *)
(* ===================================================================== *)

Module AnalyzeTodos.

(** Text that is produced and passed on but never inspected. *)
Definition Text := string.

Record TodoAnalysis := {
  summary : Text;
  urgentTasks : list Text;
  insights : list Text;
  recommendations : list Text
}.

Inductive ErrorText :=
| NeedTodos         (* '유효한 할 일 목록이 필요합니다.' *)
| BadPeriod         (* "분석 기간은 'today' 또는 'week'이어야 합니다." *)
| NotConfigured     (* 'AI 서비스 설정이 완료되지 않았습니다.' *)
| AuthFailed        (* 'AI 서비스 인증에 실패했습니다.' *)
| QuotaExceeded     (* 'AI 서비스 사용량을 초과했습니다. 잠시 후 다시 시도해주세요.' *)
| Failed.           (* '할 일 분석 중 오류가 발생했습니다. 다시 시도해주세요.' *)

Record Response := {
  status : Z;
  success : bool;
  data : option TodoAnalysis;
  error : option ErrorText
}.

Definition failure (st : Z) (e : ErrorText) : Response :=
  {| status := st; success := false; data := None; error := Some e |}.
Definition succeeded (d : TodoAnalysis) : Response :=
  {| status := 200; success := true; data := Some d; error := None |}.

(** The [todos] field of the body: an array of todo items, or anything
    else (missing, [null], a string, an object...). The items of the
    array are todo records, as the client sends them: an array with an
    item that is none ([null], a record without [category]), which
    passes [Array.isArray] and on which the statistics throw, is not
    represented. *)
Inductive TodosField :=
| TodosArray (items : list Todo.t)
| TodosOther.

Record Body := { todos : TodosField; period : JsArg }.

(** The outcome of [await request.json()] and the destructuring. *)
Record Request := { body : JsError + Body }.

(** [period && ['today', 'week'].includes(period)] *)
Definition validPeriod (p : JsArg) : bool :=
  match p with
  | JString s => arrayIncludes [lit "today"; lit "week"] s
  | JOther => false
  end.

Definition isToday (p : JsArg) : bool :=
  match p with
  | JString s => JsString.eqb s (lit "today")
  | JOther => false
  end.

Local Open Scope string_scope.

(** The answer for an empty list. *)
Definition emptyAnalysis (p : JsArg) : TodoAnalysis :=
  {| summary := if isToday p then "오늘 등록된 할 일이 없습니다."
                else "이번 주 등록된 할 일이 없습니다.";
     urgentTasks := [];
     insights := ["아직 할 일을 추가하지 않으셨네요.";
                  "새로운 할 일을 추가해보세요!"];
     recommendations :=
       ["할 일을 추가하여 체계적으로 관리해보세요.";
        "AI 생성 기능을 활용하면 더 쉽게 할 일을 만들 수 있습니다."] |}.

Local Close Scope string_scope.

Section Statistics.

Variable tz : Z.
Variable legacyParse : jsstring -> JsDate.
Variable now : Z.

Let currentDate : jsstring := currentDateOf now.
Let parse (s : jsstring) : JsDate := newDate tz legacyParse s.

(** The due date of a todo that has one and is not completed. *)
Definition pendingDue (t : Todo.t) : option jsstring :=
  if negb (truthy (Todo.due_date t)) || Todo.completed t then None
  else Todo.due_date t.

Definition isOverdue (t : Todo.t) : bool :=
  match pendingDue t with
  | Some due => date_lt (parse due) (parse currentDate)
  | None => false
  end.

Definition isDueToday (t : Todo.t) : bool :=
  match pendingDue t with
  | Some due => JsString.eqb (beforeFirst (ch "T") due) currentDate
  | None => false
  end.

Definition isDueThisWeek (t : Todo.t) : bool :=
  match pendingDue t with
  | Some due =>
      let dueDate := parse due in
      let weekEnd := addDays 7 (Some (kstTime now)) in
      date_ge dueDate (parse currentDate) && date_le dueDate weekEnd
  | None => false
  end.

(** The hour of the due date; a comparison with NaN is false. *)
Definition dueHourIn (lo hi : Z) (t : Todo.t) : bool :=
  match Todo.due_date t with
  | Some ((_ :: _) as due) =>
      match parse due with
      | Some d => let hour := getHours tz d in (lo <=? hour) && (hour <? hi)
      | None => false
      end
  | _ => false
  end.

Definition hasPriority (p : string) (t : Todo.t) : bool :=
  JsString.eqb (Todo.priority t) (lit p).

Record Statistics := {
  totalTodos : nat;
  completedTodos : nat;
  incompleteTodos : nat;
  highPriority : nat;
  mediumPriority : nat;
  lowPriority : nat;
  highCompleted : nat;
  mediumCompleted : nat;
  lowCompleted : nat;
  todosWithDueDate : nat;
  overdueCount : nat;
  dueTodayCount : nat;
  dueThisWeekCount : nat;
  morningCount : nat;
  afternoonCount : nat;
  eveningCount : nat
}.

(** The counts of step 5 of the handler (the percentages, the
    category and weekday tables are renderings of these counts and
    of the list itself). *)
Definition statistics (ts : list Todo.t) : Statistics :=
  let total := List.length ts in
  let completed := count Todo.completed ts in
  {| totalTodos := total;
     completedTodos := completed;
     incompleteTodos := (total - completed)%nat;
     highPriority := count (hasPriority "high") ts;
     mediumPriority := count (hasPriority "medium") ts;
     lowPriority := count (hasPriority "low") ts;
     highCompleted :=
       count (fun t => hasPriority "high" t && Todo.completed t) ts;
     mediumCompleted :=
       count (fun t => hasPriority "medium" t && Todo.completed t) ts;
     lowCompleted :=
       count (fun t => hasPriority "low" t && Todo.completed t) ts;
     todosWithDueDate := count (fun t => truthy (Todo.due_date t)) ts;
     overdueCount := count isOverdue ts;
     dueTodayCount := count isDueToday ts;
     dueThisWeekCount := count isDueThisWeek ts;
     morningCount := count (dueHourIn 6 12) ts;
     afternoonCount := count (dueHourIn 12 18) ts;
     eveningCount := count (dueHourIn 18 24) ts |}.

End Statistics.

(** What the instruction text is rendered from. *)
Record Prompt := {
  promptPeriod : JsArg;
  promptDate : jsstring;
  promptStatistics : Statistics;
  promptTodos : list Todo.t
}.

(** The [catch] block. *)
Definition onError (e : JsError) : Response :=
  if messageIncludes e "API key" || messageIncludes e "authentication"
  then failure 401 AuthFailed
  else if messageIncludes e "quota" || messageIncludes e "rate limit"
          || messageIncludes e "429"
  then failure 429 QuotaExceeded
  else failure 500 Failed.

Local Open Scope handler_scope.

Definition POST (env : Env Prompt TodoAnalysis) (request : Request)
  : Handler.M Response :=
  Handler.tryCatch
    (b <- Handler.await (body request) ;;
     match todos b with
     | TodosOther => Handler.ret (failure 400 NeedTodos)
     | TodosArray items =>
         if negb (validPeriod (period b)) then
           Handler.ret (failure 400 BadPeriod)
         else if (List.length items =? 0)%nat then
           Handler.ret (succeeded (emptyAnalysis (period b)))
         else if negb (truthy (apiKey env)) then
           Handler.ret (failure 500 NotConfigured)
         else
           let stats :=
             statistics (zone env) (legacyParse env) (now env) items in
           let prompt :=
             {| promptPeriod := period b;
                promptDate := currentDateOf (now env);
                promptStatistics := stats;
                promptTodos := items |} in
           result <- Handler.callGateway (generateObject env) prompt ;;
           Handler.ret (succeeded result)
     end)
    (fun e => Handler.ret (onError e)).

End AnalyzeTodos.

(* ===================================================================== *)
(** ** The TodoSummary component                                           *)
(* ===================================================================== *)

(** IEEE 754 double precision, the arithmetic of JavaScript numbers. *)
Module JsNumber.

Definition prec : Z := 53.
Definition emax : Z := 1024.

Definition number := spec_float.

(** The number of an integer (exact below 2^53). *)
Definition ofZ (n : Z) : number := binary_normalize prec emax n 0 false.

Definition div (x y : number) : number := SFdiv prec emax x y.
Definition mul (x y : number) : number := SFmul prec emax x y.

(** [Math.round(x)] of a finite number: the integer closest to [x],
    a tie going up, that is the floor of [x + 1/2] computed exactly.
    Zero stands in for NaN and the infinities, which are integers to
    no one. *)
Definition Math_round (x : number) : Z :=
  match x with
  | S754_finite sign m e =>
      let v := if sign then Z.neg m else Z.pos m in
      if 0 <=? e then v * 2 ^ e
      else (2 * v + 2 ^ (- e)) / 2 ^ (- e + 1)
  | _ => 0
  end.

End JsNumber.

Module TodoSummary.

Section Component.

Variable tz : Z.
Variable legacyParse : jsstring -> JsDate.
(** [new Date()] at the time of rendering *)
Variable now : Z.
(** the [todos] prop *)
Variable todos : list Todo.t.

Let parse (s : jsstring) : JsDate := newDate tz legacyParse s.

(** [s?.split("T")[0] === todayStr] *)
Definition datePartIs (todayStr : jsstring) (s : option jsstring) : bool :=
  match s with
  | Some d => JsString.eqb (beforeFirst (ch "T") d) todayStr
  | None => false
  end.

Definition getTodayTodos : list Todo.t :=
  let today := setHours tz 0 0 0 0 (Some now) in
  let todayStr := match today with Some t => isoDate t | None => [] end in
  filter (fun todo =>
            datePartIs todayStr (Todo.created_date todo)
            || datePartIs todayStr (Todo.due_date todo))
         todos.

Definition mondayOffset : Z :=
  let currentDay := getDay tz now in
  if currentDay =? 0 then -6 else 1 - currentDay.

Definition monday : JsDate :=
  setHours tz 0 0 0 0 (addDays mondayOffset (Some now)).

Definition sunday : JsDate :=
  setHours tz 23 59 59 999 (addDays 6 monday).

(** [s ? new Date(s) : null] followed by
    [d && d >= monday && d <= sunday] *)
Definition withinWeek (s : option jsstring) : bool :=
  match s with
  | Some ((_ :: _) as str) =>
      let d := parse str in
      date_ge d monday && date_le d sunday
  | _ => false
  end.

Definition isCreatedThisWeek (todo : Todo.t) : bool :=
  withinWeek (Todo.created_date todo).
Definition isDueThisWeek (todo : Todo.t) : bool :=
  withinWeek (Todo.due_date todo).

Definition getWeekTodos : list Todo.t :=
  filter (fun todo => isCreatedThisWeek todo || isDueThisWeek todo) todos.

Record Stats := {
  total : nat;
  completed : nat;
  incomplete : nat;
  completionRate : Z;
  highPriority : list Todo.t;
  mediumPriority : list Todo.t;
  lowPriority : list Todo.t;
  urgent : list Todo.t
}.

Definition hasPriority (p : string) (t : Todo.t) : bool :=
  JsString.eqb (Todo.priority t) (lit p).

Definition isUrgent (t : Todo.t) : bool :=
  match Todo.due_date t with
  | Some ((_ :: _) as due) =>
      let today := setHours tz 0 0 0 0 (Some now) in
      let dueDate := setHours tz 0 0 0 0 (parse due) in
      date_le dueDate today
  | _ => false
  end.

Definition getStats (targetTodos : list Todo.t) : Stats :=
  let total := List.length targetTodos in
  let completed := count Todo.completed targetTodos in
  let incomplete := filter (fun t => negb (Todo.completed t)) targetTodos in
  let completionRate :=
    if (0 <? total)%nat
    then JsNumber.Math_round
           (JsNumber.mul
              (JsNumber.div (JsNumber.ofZ (Z.of_nat completed))
                            (JsNumber.ofZ (Z.of_nat total)))
              (JsNumber.ofZ 100))
    else 0 in
  {| total := total;
     completed := completed;
     incomplete := List.length incomplete;
     completionRate := completionRate;
     highPriority := filter (hasPriority "high") incomplete;
     mediumPriority := filter (hasPriority "medium") incomplete;
     lowPriority := filter (hasPriority "low") incomplete;
     urgent := filter isUrgent incomplete |}.

End Component.

End TodoSummary.

(* ===================================================================== *)
(** ** The TodoCard component                                              *)
(* ===================================================================== *)

Module TodoCard.

(** [String(n)] for an integer that is not negative. *)
Definition decimal (n : Z) : jsstring :=
  lit (NilZero.string_of_uint (N.to_uint (Z.to_N n))).

(** [Math.ceil(a / b)] for a positive [b]. *)
Definition ceilDiv (a b : Z) : Z := - ((- a) / b).

(** '오늘' and '내일' *)
Definition todayLabel : jsstring := [50724; 45720]%N.
Definition tomorrowLabel : jsstring := [45236; 51068]%N.

Section Card.

Variable tz : Z.
Variable legacyParse : jsstring -> JsDate.
(** [new Date()] at the time of rendering *)
Variable now : Z.

Definition calculateDday (dateString : option jsstring) : option jsstring :=
  match dateString with
  | Some ((_ :: _) as s) =>
      let today := setHours tz 0 0 0 0 (Some now) in
      let targetDate := setHours tz 0 0 0 0 (newDate tz legacyParse s) in
      match targetDate, today with
      | Some target, Some start =>
          let diffTime := target - start in
          let diffDays := ceilDiv diffTime (1000 * 60 * 60 * 24) in
          if diffDays =? 0 then Some todayLabel
          else if diffDays =? 1 then Some tomorrowLabel
          else if diffDays <? 0 then Some (lit "D+" ++ decimal (Z.abs diffDays))
          else Some (lit "D-" ++ decimal diffDays)
      | _, _ =>
          (* the difference is NaN and every comparison with it is false *)
          Some (lit "D-NaN")
      end
  | _ => None
  end.

(** [dday?.startsWith("D+") && !todo.completed] *)
Definition isOverdue (todo : Todo.t) : bool :=
  match calculateDday (Todo.due_date todo) with
  | Some dday => startsWith (lit "D+") dday && negb (Todo.completed todo)
  | None => false
  end.

End Card.

End TodoCard.

(* ===================================================================== *)
(** ** Notions the statements use                                          *)
(* ===================================================================== *)

(** The head of the string, if any, is not white space. *)
Definition headClean (s : jsstring) : Prop :=
  match s with
  | [] => True
  | c :: _ => isWhiteSpace c = false
  end.

Definition lastClean (s : jsstring) : Prop := headClean (rev s).

(** White space occurs only as single spaces; [prev] tells that the
    character before the string is white space. *)
Fixpoint singleSpaced (prev : bool) (s : jsstring) : bool :=
  match s with
  | [] => true
  | c :: s' =>
      if isWhiteSpace c
      then N.eqb c SPACE && negb prev && singleSpaced true s'
      else singleSpaced false s'
  end.


(** The optional date string is a date whose instant lies in [lo, hi]. *)
Definition withinRange (tz : Z) (legacyParse : jsstring -> JsDate)
           (lo hi : Z) (s : option jsstring) : Prop :=
  exists str t,
    s = Some str /\ newDate tz legacyParse str = Some t /\ lo <= t <= hi.

(** The completion rate as the specification words it: 100 * completed /
    total rounded to the nearest integer (a half going up), 0 for an empty
    list. *)
Definition completionRateSpec (completed total : nat) : Z :=
  if (0 <? total)%nat
  then (2 * (100 * Z.of_nat completed) + Z.of_nat total)
       / (2 * Z.of_nat total)
  else 0.

(** The characters of a string that are not white space, in order. *)
Definition nonWhite (s : jsstring) : jsstring :=
  filter (fun c => negb (isWhiteSpace c)) s.

(** [HH:mm] for an hour and a minute. *)
Definition timeString (h m : Z) : jsstring :=
  padded 2 h ++ [ch ":"] ++ padded 2 m.

(** [Math.round((completed / total) * 100)], the rate [getStats] computes
    for a non-empty list. *)
Definition roundedPercent (completed total : nat) : Z :=
  JsNumber.Math_round
    (JsNumber.mul
       (JsNumber.div (JsNumber.ofZ (Z.of_nat completed))
                     (JsNumber.ofZ (Z.of_nat total)))
       (JsNumber.ofZ 100)).

(** For every total from [t] up, [n] of them, and every completed count
    up to the total: the computed rate is the exact one. *)
Fixpoint ratesExactRow (c : nat) (t : nat) : bool :=
  Z.eqb (roundedPercent c t) (completionRateSpec c t)
  && match c with
     | O => true
     | S c' => ratesExactRow c' t
     end.

Fixpoint ratesExactUpTo (t : nat) : bool :=
  match t with
  | O => true
  | S t' => ratesExactRow t t && ratesExactUpTo t'
  end.

(** The first day of the 400-year cycle that holds the epoch's reference
    point, 1 March of the year 0, and the length of a cycle in days. *)
Definition cycleStart : Z := -719468.
Definition cycleDays : Z := 146097.

(** The civil date of day [z] is a date of the calendar and its day
    number is [z] again; its year is at most 399 of the cycle unless the
    day lies in the last January and February of the cycle. *)
Definition dayRoundTrips (z : Z) : bool :=
  let '(y, m, d) := civilFromDays z in
  (daysFromCivil y m d =? z)
  && (1 <=? m) && (m <=? 12) && (1 <=? d) && (d <=? daysInMonth y m)
  && (0 <=? y) && (y <=? 400)
  && (if z <? cycleStart + 146037 then y <=? 399 else y =? 400).

Fixpoint daysRoundTrip (n : nat) (z : Z) : bool :=
  match n with
  | O => true
  | S n' => if dayRoundTrips z then daysRoundTrip n' (z + 1) else false
  end.

(** The instants whose UTC year is from 0000 to 9999. *)
Definition fourDigitYear (t : Z) : Prop :=
  -62167219200000 <= t < 253402300800000.

(* ===================================================================== *)
(** ** Sample deployments and requests                                     *)
(* ===================================================================== *)

Definition noLegacyParse : jsstring -> JsDate := fun _ => None.

(** 2026-01-03T16:00:00Z, which is 01:00 on 4 January in UTC+9. *)
Definition sampleNow : Z := 1767456000000.

Definition sampleAnalysis : AnalyzeTodos.TodoAnalysis :=
  {| AnalyzeTodos.summary := "ok"%string;
     AnalyzeTodos.urgentTasks := [];
     AnalyzeTodos.insights := [];
     AnalyzeTodos.recommendations := [] |}.

(** A deployment without API key whose gateway would answer. *)
Definition unconfiguredEnv : Env AnalyzeTodos.Prompt AnalyzeTodos.TodoAnalysis :=
  {| apiKey := None; now := sampleNow; zone := 9 * msPerHour;
     legacyParse := noLegacyParse;
     generateObject := fun _ => inr sampleAnalysis |}.

Definition emptyRequest (p : jsstring) : AnalyzeTodos.Request :=
  {| AnalyzeTodos.body :=
       inr {| AnalyzeTodos.todos := AnalyzeTodos.TodosArray [];
              AnalyzeTodos.period := JString p |} |}.

(** A configured deployment whose gateway raises [e] on every call. *)
Definition failingEnv (e : JsError) : Env GenerateTodo.Prompt GeneratedTodo :=
  {| apiKey := Some (lit "key"); now := sampleNow; zone := 9 * msPerHour;
     legacyParse := noLegacyParse;
     generateObject := fun _ => inl e |}.

Definition promptRequest (p : jsstring) : GenerateTodo.Request :=
  {| GenerateTodo.body := inr (JString p) |}.

Definition plainError (msg : string) (c : option jsstring) : JsError :=
  {| name := Some (lit "Error"); message := Some (lit msg); code := c |}.

(** The error Node raises when a connection to a local port is refused. *)
Definition refusedOnPort4290 : JsError :=
  plainError "connect ECONNREFUSED 127.0.0.1:4290" (Some (lit "ECONNREFUSED")).

Definition sampleTodo (due : option jsstring) (done : bool) : Todo.t :=
  {| Todo.title := lit "report";
     Todo.created_date := Some (lit "2025-12-01T00:00:00+00:00");
     Todo.due_date := due;
     Todo.priority := lit "medium";
     Todo.category := [defaultCategory];
     Todo.completed := done |}.

(** Due on 4 January 2026 at 03:00 in UTC+9, two hours after [sampleNow]. *)
Definition dueAtThreeLocal : Todo.t :=
  sampleTodo (Some (lit "2026-01-04T03:00:00+09:00")) false.
(** The same instant as the storage backend writes it. *)
Definition dueAtThreeUtc : Todo.t :=
  sampleTodo (Some (lit "2026-01-03T18:00:00+00:00")) false.

(** 40 todos of which 23 are completed. *)
Definition fortyTodos : list Todo.t :=
  repeat (sampleTodo None true) 23 ++ repeat (sampleTodo None false) 17.
(** 4 todos of which 3 are completed. *)
Definition fourTodos : list Todo.t :=
  repeat (sampleTodo None true) 3 ++ [sampleTodo None false].


(** A model output whose due date is long past. *)
Definition pastDueDate : GeneratedTodo :=
  {| title := Some (lit "team meeting");
     description := None;
     due_date := Some (lit "2000-01-01");
     due_time := Some (lit "14:30");
     priority := Some (lit "high");
     category := Some [defaultCategory] |}.

Definition kst : Z := 9 * msPerHour.




(** At [sampleNow] it is Sunday 4 January 2026 in UTC+9: the week runs
    from Monday 29 December to that Sunday. *)

(** Created long before, due at the very end of that Sunday. *)
Definition dueSundayNight : Todo.t :=
  sampleTodo (Some (lit "2026-01-04T23:59:59.999+09:00")) false.

(** A request with one todo, for any deployment. *)
Definition oneTodoRequest : AnalyzeTodos.Request :=
  {| AnalyzeTodos.body :=
       inr {| AnalyzeTodos.todos := AnalyzeTodos.TodosArray [dueSundayNight];
              AnalyzeTodos.period := JString (lit "week") |} |}.

(** A configured deployment whose gateway answers [sampleAnalysis]. *)
Definition configuredEnv : Env AnalyzeTodos.Prompt AnalyzeTodos.TodoAnalysis :=
  {| apiKey := Some (lit "key"); now := sampleNow; zone := 9 * msPerHour;
     legacyParse := noLegacyParse;
     generateObject := fun _ => inr sampleAnalysis |}.

Definition analyzeBody (ts : AnalyzeTodos.TodosField) (p : JsArg)
  : AnalyzeTodos.Body :=
  {| AnalyzeTodos.todos := ts; AnalyzeTodos.period := p |}.

(** A deployment of the generate-todo route without API key. *)
Definition unconfiguredGenerateEnv : Env GenerateTodo.Prompt GeneratedTodo :=
  {| apiKey := None; now := sampleNow; zone := 9 * msPerHour;
     legacyParse := noLegacyParse;
     generateObject := fun _ => inr pastDueDate |}.

(** A configured deployment whose gateway returns [pastDueDate]. *)
Definition answeringEnv : Env GenerateTodo.Prompt GeneratedTodo :=
  {| apiKey := Some (lit "key"); now := sampleNow; zone := 9 * msPerHour;
     legacyParse := noLegacyParse;
     generateObject := fun _ => inr pastDueDate |}.

(** Created at [sampleNow], as the storage backend writes it; no due
    date. *)
Definition createdJustNow : Todo.t :=
  {| Todo.title := lit "report";
     Todo.created_date := Some (lit "2026-01-03T16:00:00+00:00");
     Todo.due_date := None;
     Todo.priority := lit "medium";
     Todo.category := [defaultCategory];
     Todo.completed := false |}.

(** Due on 2 January 2026, two days before the local day of [sampleNow]. *)
Definition dueTwoDaysAgo : Todo.t :=
  sampleTodo (Some (lit "2026-01-02T12:00:00+09:00")) false.

(* ===================================================================== *)
(** * Properties                                                           *)
(* ===================================================================== *)

(** ** Sample runs *)

Example preprocessInput_sample :
  preprocessInput (lit "  buy   milk ") = lit "buy milk".
Proof. reflexivity. Qed.

Example newDate_sample :
  newDate 0 (fun _ => None) (lit "2026-01-04") = Some 1767484800000
  /\ isoDate 1767484800000 = lit "2026-01-04"
  /\ newDate 0 (fun _ => None) (lit "2026-01-04T03:00:00+09:00")
     = Some 1767463200000.
Proof. repeat split; reflexivity. Qed.

Example postprocessTodo_samples :
  forall tz legacy,
    title (postprocessTodo tz legacy
             {| title := Some (lit "  call mom  "); description := Some (lit "  ");
                due_date := None; due_time := Some (lit "25:99");
                priority := Some (lit "urgent"); category := Some [] |}
             (lit "2026-01-04")) = Some (lit "call mom")
    /\ due_time (postprocessTodo tz legacy
                   {| title := None; description := None; due_date := None;
                      due_time := Some (lit "25:99"); priority := None;
                      category := None |} (lit "2026-01-04"))
       = Some (lit "09:00")
    /\ due_time (postprocessTodo tz legacy pastDueDate (lit "2026-01-04"))
       = Some (lit "14:30")
    /\ description (postprocessTodo tz legacy
                      {| title := None; description := Some (lit "  ");
                         due_date := None; due_time := None; priority := None;
                         category := None |} (lit "2026-01-04")) = None.
Proof. intros. repeat split; reflexivity. Qed.

Example postprocessTodo_empty_object :
  postprocessTodo 0 (fun _ => None) emptyObject (lit "2026-01-04")
  = {| title := Some fallbackTitle; description := None; due_date := None;
       due_time := None; priority := Some (lit "medium");
       category := Some [defaultCategory] |}.
Proof. reflexivity. Qed.

(** ** Trimming and run replacement *)

Section StringLemmas.

Local Open Scope nat_scope.

Lemma dropWhile_headClean : forall s, headClean (dropWhile isWhiteSpace s).
Proof.
  induction s as [| c s IH]; simpl; [exact I|].
  destruct (isWhiteSpace c) eqn:E; [exact IH | exact E].
Qed.

Lemma headClean_dropWhile :
  forall s, headClean s -> dropWhile isWhiteSpace s = s.
Proof.
  intros [| c s] H; simpl in *; [reflexivity | now rewrite H].
Qed.

Lemma dropWhile_snoc :
  forall s c, isWhiteSpace c = false ->
    dropWhile isWhiteSpace (s ++ [c]) = dropWhile isWhiteSpace s ++ [c].
Proof.
  induction s as [| x s IH]; intros c Hc; simpl.
  - now rewrite Hc.
  - destruct (isWhiteSpace x); [now apply IH | reflexivity].
Qed.

Lemma trimEnd_headClean : forall s, headClean s -> headClean (trimEnd s).
Proof.
  intros [| c s] H; [exact I|]. simpl in H.
  unfold trimEnd. simpl rev. rewrite dropWhile_snoc by exact H.
  rewrite rev_app_distr. simpl. exact H.
Qed.

Lemma trim_headClean : forall s, headClean (trim s).
Proof.
  intros s. apply trimEnd_headClean, dropWhile_headClean.
Qed.

Lemma trim_lastClean : forall s, lastClean (trim s).
Proof.
  intros s. unfold lastClean, trim, trimEnd. rewrite rev_involutive.
  apply dropWhile_headClean.
Qed.

Lemma trim_clean : forall s, headClean s -> lastClean s -> trim s = s.
Proof.
  intros s Hh Hl. unfold trim, trimStart, trimEnd.
  rewrite (headClean_dropWhile s Hh), (headClean_dropWhile (rev s) Hl).
  apply rev_involutive.
Qed.

Lemma replaceRuns_snoc :
  forall cls r s b c, cls c = false ->
    replaceRuns cls r b (s ++ [c]) = replaceRuns cls r b s ++ [c].
Proof.
  induction s as [| x s IH]; intros b c Hc; simpl.
  - now rewrite Hc.
  - destruct (cls x); [destruct b|]; simpl; now rewrite IH.
Qed.

Lemma replaceRuns_headClean :
  forall r s, headClean s -> headClean (replaceRuns isWhiteSpace r false s).
Proof.
  intros r [| c s] H; simpl in *; [exact I|]. now rewrite H.
Qed.

Lemma replaceRuns_lastClean :
  forall r s, lastClean s -> lastClean (replaceRuns isWhiteSpace r false s).
Proof.
  intros r s. destruct (rev s) as [| c t] eqn:E; unfold lastClean; rewrite E.
  - apply (f_equal (@rev _)) in E. rewrite rev_involutive in E. subst s.
    intros _. exact I.
  - apply (f_equal (@rev _)) in E. rewrite rev_involutive in E. subst s.
    simpl. intros Hc. rewrite replaceRuns_snoc by exact Hc.
    rewrite rev_app_distr. exact Hc.
Qed.

Lemma replaceRuns_singleSpaced :
  forall s b, singleSpaced b (replaceRuns isWhiteSpace SPACE b s) = true.
Proof.
  induction s as [| c s IH]; intros b; simpl; [reflexivity|].
  destruct (isWhiteSpace c) eqn:E.
  - destruct b; [apply IH|]. simpl. apply IH.
  - simpl. rewrite E. apply IH.
Qed.

Lemma singleSpaced_fixed :
  forall s b, singleSpaced b s = true ->
    replaceRuns isWhiteSpace SPACE b s = s.
Proof.
  induction s as [| c s IH]; intros b H; simpl in *; [reflexivity|].
  destruct (isWhiteSpace c) eqn:E.
  - apply andb_prop in H. destruct H as [H Hs].
    apply andb_prop in H. destruct H as [Hc Hb].
    apply N.eqb_eq in Hc. destruct b; [discriminate|].
    rewrite (IH true Hs). now subst c.
  - now rewrite (IH false H).
Qed.

Lemma replaceRuns_no_newline :
  forall s b,
    Forall (fun c => isNewline c = false)
           (replaceRuns isWhiteSpace SPACE b s).
Proof.
  induction s as [| c s IH]; intros b; simpl; [constructor|].
  destruct (isWhiteSpace c) eqn:E.
  - destruct b; [apply IH|]. constructor; [reflexivity | apply IH].
  - constructor; [| apply IH].
    unfold isNewline, LF. destruct (N.eqb_spec c 10); [|reflexivity].
    subst c. discriminate E.
Qed.

Lemma replaceRuns_absent :
  forall cls r s b, Forall (fun c => cls c = false) s ->
    replaceRuns cls r b s = s.
Proof.
  induction s as [| c s IH]; intros b H; simpl; [reflexivity|].
  inversion H as [| ? ? Hc Hs]; subst. rewrite Hc. now rewrite IH.
Qed.

(** The second replacement of [preprocessInput] finds nothing to do. *)
Lemma preprocessInput_spaces :
  forall s,
    preprocessInput s = replaceRuns isWhiteSpace SPACE false (trim s).
Proof.
  intros s. unfold preprocessInput.
  apply replaceRuns_absent, replaceRuns_no_newline.
Qed.

End StringLemmas.

(** ** The sanitizer *)

Lemma validateInput_cases :
  forall s,
    validateInput (JString s) =
      if (strlen s =? 0)%nat then invalid ErrInvalid
      else if (strlen (trim s) <? 2)%nat then invalid ErrTooShort
      else if (500 <? strlen s)%nat then invalid ErrTooLong
      else if hasValidContent (trim s) then ok
      else invalid ErrNoContent.
Proof.
  intros s. unfold validateInput.
  destruct (strlen s =? 0)%nat; [reflexivity|].
  destruct (strlen (trim s) <? 2)%nat; [reflexivity|].
  destruct (500 <? strlen s)%nat; [reflexivity|].
  destruct (hasValidContent (trim s)); reflexivity.
Qed.

Lemma trim_length_le : forall s, (strlen (trim s) <= strlen s)%nat.
Proof.
  assert (D : forall s, (List.length (dropWhile isWhiteSpace s)
                         <= List.length s)%nat).
  { induction s as [| c s IH]; simpl; [lia|].
    destruct (isWhiteSpace c); simpl; lia. }
  intros s. unfold strlen, trim, trimEnd, trimStart.
  rewrite length_rev.
  etransitivity; [apply D|]. rewrite length_rev. apply D.
Qed.

Ltac rules_tac :=
  repeat match goal with
         | H : exists _, _ |- _ => destruct H
         | H : _ /\ _ |- _ => destruct H
         | H : _ \/ _ |- _ => destruct H
         | H : JString _ = JString _ |- _ => inversion H; clear H; subst
         end;
  try discriminate; try congruence; try (simpl in *; lia).

(** C4. [validateInput] applies four rules in order and the first that
    fails decides: an input that is missing, not a string or empty is
    refused; then one whose trimmed length is below 2; then one whose raw
    length is above 500; then one whose trimmed text holds no Hangul
    syllable, Latin letter or digit; every other input is accepted.
    'a' is refused, 'ab' is accepted, every input of raw length 501 is
    refused, and an input of raw length 500 that passes the other rules
    is accepted. *)
Theorem validateInput_rules :
  (forall text,
     (valid (validateInput text) = true <->
      exists s, text = JString s
                /\ (2 <= strlen (trim s))%nat
                /\ (strlen s <= 500)%nat
                /\ exists c, In c (trim s) /\ isValidContentChar c = true)
     /\ (error (validateInput text) = None <->
         valid (validateInput text) = true)
     /\ (error (validateInput text) = Some ErrInvalid <->
         text = JOther \/ text = JString [])
     /\ (error (validateInput text) = Some ErrTooShort <->
         exists s, text = JString s /\ s <> []
                   /\ (strlen (trim s) < 2)%nat)
     /\ (error (validateInput text) = Some ErrTooLong <->
         exists s, text = JString s
                   /\ (2 <= strlen (trim s))%nat
                   /\ (500 < strlen s)%nat)
     /\ (error (validateInput text) = Some ErrNoContent <->
         exists s, text = JString s
                   /\ (2 <= strlen (trim s))%nat
                   /\ (strlen s <= 500)%nat
                   /\ forall c, In c (trim s) -> isValidContentChar c = false))
  /\ valid (validateInput (JString (lit "a"))) = false
  /\ valid (validateInput (JString (lit "ab"))) = true
  /\ (forall s, strlen s = 501%nat ->
        valid (validateInput (JString s)) = false)
  /\ (forall s, strlen s = 500%nat ->
        (2 <= strlen (trim s))%nat ->
        hasValidContent (trim s) = true ->
        valid (validateInput (JString s)) = true).
Proof.
  split; [| repeat split].
  - intros text. destruct text as [s |].
    2:{ simpl. repeat split; intros; rules_tac; auto. }
    rewrite validateInput_cases.
    pose proof (trim_length_le s) as Hle.
    assert (Hcontent : hasValidContent (trim s) = true <->
                       exists c, In c (trim s) /\ isValidContentChar c = true)
      by apply existsb_exists.
    destruct (Nat.eqb_spec (strlen s) 0) as [E0 | E0].
    { assert (s = []) by (destruct s; [reflexivity | discriminate E0]).
      subst s. simpl. repeat split; intros; rules_tac; auto. }
    assert (s <> []) by (intros ->; apply E0; reflexivity).
    destruct (Nat.ltb_spec (strlen (trim s)) 2) as [E1 | E1].
    { simpl. repeat split; intros; rules_tac. exists s. auto. }
    destruct (Nat.ltb_spec 500 (strlen s)) as [E2 | E2].
    { simpl. repeat split; intros; rules_tac. exists s. auto. }
    destruct (hasValidContent (trim s)) eqn:E3.
    { simpl. repeat split; intros; rules_tac; auto.
      - exists s. repeat split; auto. now apply Hcontent.
      - destruct (proj1 Hcontent eq_refl) as [c [Hin Hc]].
        match goal with R : forall c, In c _ -> _ |- _ =>
          rewrite (R c Hin) in Hc end. discriminate. }
    simpl. repeat split; intros; rules_tac.
    + assert (false = true) by (apply Hcontent; eauto). discriminate.
    + exists s. repeat split; auto.
      intros c Hin. destruct (isValidContentChar c) eqn:Ec; [|reflexivity].
      assert (false = true) by (apply Hcontent; exists c; auto).
      discriminate.
  - intros s Hlen. rewrite validateInput_cases, Hlen.
    destruct (strlen (trim s) <? 2)%nat; reflexivity.
  - intros s Hlen Htrim Hc. rewrite validateInput_cases, Hlen, Hc.
    destruct (Nat.ltb_spec (strlen (trim s)) 2); [lia | reflexivity].
Qed.

(** C5, at an input where the code departs from it: the newline between
    the two letters comes out as a space. More generally no newline is
    left in any output, since [\s] matches a newline and the first
    replacement has turned every run of white space into one space before
    the replacement of newline runs is tried. *)
Theorem preprocessInput_newline_becomes_space :
  preprocessInput [97; 10; 98]%N = [97; 32; 98]%N
  /\ forall s, existsb isNewline (preprocessInput s) = false.
Proof.
  split; [reflexivity|].
  intros s. rewrite preprocessInput_spaces.
  destruct (existsb isNewline _) eqn:E; [| reflexivity].
  apply existsb_exists in E. destruct E as (c & Hin & Hc).
  pose proof (replaceRuns_no_newline (trim s) false) as H.
  rewrite Forall_forall in H. rewrite (H c Hin) in Hc. discriminate Hc.
Qed.

(** C9. Normalising twice gives what normalising once gives, for every
    string and so for every valid input. *)
Theorem preprocessInput_idempotent :
  forall x, preprocessInput (preprocessInput x) = preprocessInput x.
Proof.
  intros x. rewrite (preprocessInput_spaces (preprocessInput x)).
  rewrite (preprocessInput_spaces x).
  set (t := trim x).
  assert (Hh : headClean (replaceRuns isWhiteSpace SPACE false t))
    by apply replaceRuns_headClean, trim_headClean.
  assert (Hl : lastClean (replaceRuns isWhiteSpace SPACE false t))
    by apply replaceRuns_lastClean, trim_lastClean.
  rewrite (trim_clean _ Hh Hl).
  apply singleSpaced_fixed, replaceRuns_singleSpaced.
Qed.

(** ** The empty list in the analyze-todos handler *)

Section AnalyzeEmpty.

Import AnalyzeTodos.
Local Open Scope string_scope.

(** C2. An analyze-todos request whose list is empty and whose period is
    'today' or 'week' is answered 200 with the fixed analysis (the
    summary chosen by the period, no urgent task, two fixed insights, two
    fixed recommendations), and the gateway is not called. *)
Theorem empty_list_canned_analysis :
  forall (env : Env Prompt TodoAnalysis) (p : jsstring),
    p = lit "today" \/ p = lit "week" ->
    Handler.run (POST env (emptyRequest p)) =
      (inr {| status := 200;
              success := true;
              data := Some
                {| summary :=
                     if JsString.eqb p (lit "today")
                     then "오늘 등록된 할 일이 없습니다."
                     else "이번 주 등록된 할 일이 없습니다.";
                   urgentTasks := [];
                   insights := ["아직 할 일을 추가하지 않으셨네요.";
                                "새로운 할 일을 추가해보세요!"];
                   recommendations :=
                     ["할 일을 추가하여 체계적으로 관리해보세요.";
                      "AI 생성 기능을 활용하면 더 쉽게 할 일을 만들 수 있습니다."] |};
              error := None |},
       0%nat).
Proof.
  intros env p [-> | ->]; reflexivity.
Qed.

(** C10. The empty list is looked at before the configuration: with an
    empty list and a valid period the answer is the canned 200 whatever
    the API key is, absent included, and an answer 'service not
    configured' (500) is only ever given to a non-empty list. *)
Theorem empty_check_precedes_configuration :
  forall (env : Env Prompt TodoAnalysis),
    (forall p, p = lit "today" \/ p = lit "week" ->
       Handler.run (POST env (emptyRequest p)) =
         (inr (succeeded (emptyAnalysis (JString p))), 0%nat))
    /\
    (forall request r calls,
       Handler.run (POST env request) = (inr r, calls) ->
       error r = Some NotConfigured ->
       status r = 500
       /\ truthy (apiKey env) = false
       /\ exists item items per,
            body request =
              inr {| todos := TodosArray (item :: items); period := per |}).
Proof.
  intros env. split.
  - intros p [-> | ->]; reflexivity.
  - intros [[e | [td per]]] r calls; unfold Handler.run, POST,
      Handler.tryCatch, Handler.bind, Handler.await, Handler.ret; simpl.
    + unfold onError.
      repeat match goal with |- context [if ?b then _ else _] =>
               destruct b end;
        intros H; inversion H; subst; simpl; discriminate.
    + destruct td as [items |]; simpl.
      2:{ intros H; inversion H; subst; simpl; discriminate. }
      destruct (validPeriod per); simpl.
      2:{ intros H; inversion H; subst; simpl; discriminate. }
      destruct items as [| item items]; simpl.
      { intros H; inversion H; subst; simpl; discriminate. }
      destruct (truthy (apiKey env)) eqn:K; simpl.
      * unfold Handler.callGateway.
        destruct (generateObject env _) as [e | res]; simpl.
        -- unfold onError.
           repeat match goal with |- context [if ?b then _ else _] =>
                    destruct b end;
             intros H; inversion H; subst; simpl; discriminate.
        -- intros H; inversion H; subst; simpl; discriminate.
      * intros H; inversion H; subst; simpl. intros _.
        repeat split. exists item, items, per. reflexivity.
Qed.

End AnalyzeEmpty.

(** ** Gateway failures in the generate-todo handler *)

Section GenerateFailures.

Import GenerateTodo.

Lemma POST_gateway_raises :
  forall (env : Env Prompt GeneratedTodo) p e,
    valid (validateInput (JString p)) = true ->
    truthy (apiKey env) = true ->
    (forall q, generateObject env q = inl e) ->
    Handler.run (POST env (promptRequest p)) = (inr (onError e), 1%nat).
Proof.
  intros env p e Hv Hk Hg.
  unfold Handler.run, POST, Handler.tryCatch, Handler.bind, Handler.await,
    Handler.ret, Handler.callGateway, promptRequest.
  cbn [body]. rewrite Hv, Hk. cbn [negb]. rewrite Hg. reflexivity.
Qed.

(** C3, at an input where the code departs from it. The gateway fails
    with the error Node raises for a refused connection to port 4290. The
    handler's own network branch recognises it and would answer 503, but
    the quota branch, which is tried first and looks for '429' anywhere
    in the message, matches the port number: the answer is 429 'quota
    exceeded', after one call to the gateway. *)
Theorem network_failure_answered_429 :
  isNetworkError refusedOnPort4290 = true
  /\ Handler.run (POST (failingEnv refusedOnPort4290)
                       (promptRequest (lit "buy milk")))
     = (inr (failure 429 QuotaExceeded), 1%nat)
  /\ ~ (forall (env : Env Prompt GeneratedTodo) p e r calls,
          valid (validateInput (JString p)) = true ->
          truthy (apiKey env) = true ->
          (forall q, generateObject env q = inl e) ->
          Handler.run (POST env (promptRequest p)) = (inr r, calls) ->
          isNetworkError e = true -> status r = 503).
Proof.
  split; [reflexivity|]. split; [reflexivity|].
  intros H.
  specialize (H (failingEnv refusedOnPort4290) (lit "buy milk")
                refusedOnPort4290 (failure 429 QuotaExceeded) 1%nat
                eq_refl eq_refl (fun _ => eq_refl) eq_refl eq_refl).
  discriminate H.
Qed.

End GenerateFailures.

Lemma empty_list_canned_analysis_witness :
  fst (Handler.run (AnalyzeTodos.POST unconfiguredEnv (emptyRequest (lit "week"))))
  = inr (AnalyzeTodos.succeeded (AnalyzeTodos.emptyAnalysis (JString (lit "week")))).
Proof.
  rewrite (empty_list_canned_analysis unconfiguredEnv (or_intror eq_refl)).
  reflexivity.
Defined.

(** ** Statistics *)

(** C7, at inputs where the code departs from it. At 01:00 on 4 January
    2026 (UTC+9) a todo due the same day at 03:00 is counted overdue: its
    instant is compared with midnight UTC of the current date, which is
    09:00 local. Written with the local offset the todo is counted both
    overdue and due today. *)
Theorem overdue_counts_todo_due_today :
  forall tz legacy,
    currentDateOf sampleNow = lit "2026-01-04"
    /\ newDate tz legacy (lit "2026-01-04T03:00:00+09:00")
       = Some (sampleNow + 2 * msPerHour)
    /\ newDate tz legacy (lit "2026-01-03T18:00:00+00:00")
       = Some (sampleNow + 2 * msPerHour)
    /\ localDay (9 * msPerHour) (sampleNow + 2 * msPerHour)
       = localDay (9 * msPerHour) sampleNow
    /\ AnalyzeTodos.overdueCount
         (AnalyzeTodos.statistics tz legacy sampleNow [dueAtThreeLocal]) = 1%nat
    /\ AnalyzeTodos.dueTodayCount
         (AnalyzeTodos.statistics tz legacy sampleNow [dueAtThreeLocal]) = 1%nat
    /\ AnalyzeTodos.overdueCount
         (AnalyzeTodos.statistics tz legacy sampleNow [dueAtThreeUtc]) = 1%nat.
Proof.
  intros tz legacy. repeat split; vm_compute; reflexivity.
Qed.

(** C8, at an input where the code departs from it. With 23 of 40 todos
    completed the rate is 57, not the 58 that rounding 57.5 gives: the
    quotient 23/40 is rounded to a double before it is multiplied by 100,
    and the product falls just below 57.5. The two cases the
    specification names come out as it says. *)
Theorem completionRate_23_of_40 :
  forall tz legacy now,
    TodoSummary.completionRate (TodoSummary.getStats tz legacy now fortyTodos)
    = 57
    /\ completionRateSpec 23 40 = 58
    /\ TodoSummary.total (TodoSummary.getStats tz legacy now fortyTodos)
       = 40%nat
    /\ TodoSummary.completed (TodoSummary.getStats tz legacy now fortyTodos)
       = 23%nat
    /\ TodoSummary.completionRate
         (TodoSummary.getStats tz legacy now fourTodos) = 75
    /\ TodoSummary.completionRate (TodoSummary.getStats tz legacy now []) = 0.
Proof.
  intros tz legacy now. repeat split; vm_compute; reflexivity.
Qed.

(** ** The repair pass *)

Lemma jsstring_eqb_eq : forall a b, JsString.eqb a b = true <-> a = b.
Proof.
  induction a as [| x a IH]; intros [| y b]; simpl; split; intros H;
    try reflexivity; try discriminate.
  - apply andb_prop in H. destruct H as [Hx Hab].
    apply N.eqb_eq in Hx. apply IH in Hab. now subst.
  - inversion H; subst. unfold char_eqb. rewrite N.eqb_refl. simpl.
    now apply IH.
Qed.

Lemma arrayIncludes_In :
  forall xs x, arrayIncludes xs x = true <-> In x xs.
Proof.
  intros xs x. unfold arrayIncludes. rewrite existsb_exists. split.
  - intros [y [Hin Heq]]. apply jsstring_eqb_eq in Heq. now subst.
  - intros Hin. exists x. split; [exact Hin | now apply jsstring_eqb_eq].
Qed.


Lemma title_bounds :
  forall t,
    let t1 := trim t in
    let t2 := if (100 <? strlen t1)%nat
              then substring0 97 t1 ++ lit "..." else t1 in
    let t3 := if (strlen t2 <? 2)%nat then fallbackTitle else t2 in
    (2 <= strlen t3 <= 100)%nat.
Proof.
  intros t t1 t2 t3. subst t3 t2.
  destruct (Nat.ltb_spec 100 (strlen t1)) as [Hlong | Hshort].
  - assert (L : strlen (substring0 97 t1 ++ lit "...") = 100%nat).
    { unfold strlen, substring0 in *. rewrite length_app, length_firstn.
      change (List.length (lit "...")) with 3%nat. lia. }
    rewrite L. cbn [Nat.ltb Nat.leb]. rewrite L. lia.
  - destruct (Nat.ltb_spec (strlen t1) 2); [vm_compute; lia | lia].
Qed.

(** ** The week window *)

Section WeekWindow.

Import TodoSummary.

Variable tz : Z.
Variable legacy : jsstring -> JsDate.
Variable now : Z.

Lemma localDay_shift :
  forall t k, localDay tz (t + k * msPerDay) = localDay tz t + k.
Proof.
  intros t k. unfold localDay.
  replace (t + k * msPerDay + tz) with (t + tz + k * msPerDay) by ring.
  apply Z.div_add. unfold msPerDay. lia.
Qed.

Lemma localDay_of_midnight :
  forall d r, 0 <= r < msPerDay -> localDay tz (d * msPerDay + r - tz) = d.
Proof.
  intros d r Hr. unfold localDay.
  replace (d * msPerDay + r - tz + tz) with (r + d * msPerDay) by ring.
  rewrite Z.div_add by (unfold msPerDay; lia).
  rewrite Z.div_small by exact Hr. reflexivity.
Qed.

Lemma mondayOffset_range :
  -6 <= mondayOffset tz now <= 0
  /\ (localDay tz now + mondayOffset tz now + 4) mod 7 = 1.
Proof.
  unfold mondayOffset, getDay.
  pose proof (Z.mod_pos_bound (localDay tz now + 4) 7 ltac:(lia)) as B.
  pose proof (Z.div_mod (localDay tz now + 4) 7 ltac:(lia)) as E.
  remember ((localDay tz now + 4) mod 7) as w.
  remember ((localDay tz now + 4) / 7) as q.
  destruct (Z.eqb_spec w 0) as [W | W].
  - split; [lia|].
    replace (localDay tz now + -6 + 4) with (1 + (q - 1) * 7) by lia.
    rewrite Z.mod_add by lia. reflexivity.
  - split; [lia|].
    replace (localDay tz now + (1 - w) + 4) with (1 + q * 7) by lia.
    rewrite Z.mod_add by lia. reflexivity.
Qed.

Lemma monday_value :
  monday tz now
  = Some ((localDay tz now + mondayOffset tz now) * msPerDay - tz).
Proof.
  unfold monday, addDays, setHours. rewrite localDay_shift.
  f_equal. unfold msPerHour, msPerMinute, msPerSecond. ring.
Qed.

Lemma sunday_value :
  sunday tz now
  = Some ((localDay tz now + mondayOffset tz now) * msPerDay - tz
          + 7 * msPerDay - 1).
Proof.
  unfold sunday. rewrite monday_value. unfold addDays, setHours.
  rewrite localDay_shift.
  replace ((localDay tz now + mondayOffset tz now) * msPerDay - tz)
    with ((localDay tz now + mondayOffset tz now) * msPerDay + 0 - tz)
    by ring.
  rewrite localDay_of_midnight by (unfold msPerDay; lia).
  f_equal. unfold msPerDay, msPerHour, msPerMinute, msPerSecond. ring.
Qed.

Lemma withinWeek_withinRange :
  forall m s,
    monday tz now = Some m ->
    sunday tz now = Some (m + 7 * msPerDay - 1) ->
    (withinWeek tz legacy now s = true <->
     withinRange tz legacy m (m + 7 * msPerDay - 1) s).
Proof.
  intros m s Hm Hs. unfold withinWeek, withinRange. rewrite Hm, Hs.
  destruct s as [[| c str] |].
  - split; [discriminate|]. intros (x & t & Hx & Ht & _).
    inversion Hx; subst. discriminate Ht.
  - unfold date_ge, date_le.
    destruct (newDate tz legacy (c :: str)) as [t |] eqn:E.
    + rewrite andb_true_iff, !Z.leb_le. split.
      * intros H. exists (c :: str), t. auto.
      * intros (x & t' & Hx & Ht & H). inversion Hx; subst.
        rewrite E in Ht. inversion Ht; subst. exact H.
    + split; [discriminate|]. intros (x & t' & Hx & Ht & _).
      inversion Hx; subst. rewrite E in Ht. discriminate Ht.
  - split; [discriminate|]. intros (x & t & Hx & _). discriminate Hx.
Qed.

(** C6. The week window starts on the Monday of the current week at
    local midnight (six days back when today is a Sunday, [1 - weekday]
    days away otherwise) and ends on the following Sunday at 23:59:59.999
    local time, both ends included; a todo is kept exactly when its
    creation instant or its due instant lies in that range. So a todo due
    on that Sunday at 23:59:59.999 is kept, and one due on the next
    Monday at 00:00:00.001 is not in the window by its due date: it is
    left out, unless the creation-or-due rule keeps it for a creation
    instant inside the window. *)
Theorem week_window :
  forall todos,
  exists m,
    monday tz now = Some m
    /\ sunday tz now = Some (m + 7 * msPerDay - 1)
    (* a Monday, at local midnight, of the week that holds today *)
    /\ getDay tz m = 1
    /\ (m + tz) mod msPerDay = 0
    /\ m <= now <= m + 7 * msPerDay - 1
    /\ (getDay tz now = 0 -> localDay tz m = localDay tz now - 6)
    /\ (getDay tz now <> 0 ->
        localDay tz m = localDay tz now + (1 - getDay tz now))
    (* the end is a Sunday at 23:59:59.999 *)
    /\ getDay tz (m + 7 * msPerDay - 1) = 0
    /\ (m + 7 * msPerDay - 1 + tz) mod msPerDay
       = 23 * msPerHour + 59 * msPerMinute + 59 * msPerSecond + 999
    (* membership *)
    /\ (forall todo,
           In todo (getWeekTodos tz legacy now todos) <->
           In todo todos
           /\ (withinRange tz legacy m (m + 7 * msPerDay - 1)
                           (Todo.created_date todo)
               \/ withinRange tz legacy m (m + 7 * msPerDay - 1)
                              (Todo.due_date todo)))
    (* the two boundary cases *)
    /\ (forall todo due,
           In todo todos ->
           Todo.due_date todo = Some due ->
           newDate tz legacy due = Some (m + 7 * msPerDay - 1) ->
           In todo (getWeekTodos tz legacy now todos))
    /\ (forall todo due,
           Todo.due_date todo = Some due ->
           newDate tz legacy due = Some (m + 7 * msPerDay + 1) ->
           isDueThisWeek tz legacy now todo = false
           /\ (~ withinRange tz legacy m (m + 7 * msPerDay - 1)
                             (Todo.created_date todo) ->
               ~ In todo (getWeekTodos tz legacy now todos))).
Proof.
  intros todos.
  pose proof mondayOffset_range as [Hoff Hday].
  pose proof monday_value as Hm. pose proof sunday_value as Hs.
  set (d := localDay tz now + mondayOffset tz now) in *.
  set (m := d * msPerDay - tz) in *.
  assert (Hld : localDay tz m = d).
  { subst m. replace (d * msPerDay - tz) with (d * msPerDay + 0 - tz) by ring.
    apply localDay_of_midnight. unfold msPerDay. lia. }
  assert (Hnow : localDay tz now * msPerDay <= now + tz
                 < (localDay tz now + 1) * msPerDay).
  { unfold localDay.
    pose proof (Z.div_mod (now + tz) msPerDay ltac:(unfold msPerDay; lia)).
    pose proof (Z.mod_pos_bound (now + tz) msPerDay
                  ltac:(unfold msPerDay; lia)).
    lia. }
  assert (Hmem : forall todo,
             In todo (getWeekTodos tz legacy now todos) <->
             In todo todos
             /\ (withinRange tz legacy m (m + 7 * msPerDay - 1)
                             (Todo.created_date todo)
                 \/ withinRange tz legacy m (m + 7 * msPerDay - 1)
                                (Todo.due_date todo))).
  { intros todo. unfold getWeekTodos, isCreatedThisWeek, isDueThisWeek.
    rewrite filter_In, orb_true_iff.
    rewrite !(withinWeek_withinRange _ Hm Hs). reflexivity. }
  exists m. split; [exact Hm|]. split; [exact Hs|].
  split; [unfold getDay; rewrite Hld; exact Hday|].
  split.
  { subst m. replace (d * msPerDay - tz + tz) with (0 + d * msPerDay) by ring.
    rewrite Z.mod_add by (unfold msPerDay; lia). reflexivity. }
  split; [subst m d; unfold msPerDay in *; lia|].
  split.
  { intros H0. rewrite Hld. subst d. unfold mondayOffset. rewrite H0.
    simpl. lia. }
  split.
  { intros H0. rewrite Hld. subst d. unfold mondayOffset.
    destruct (Z.eqb_spec (getDay tz now) 0); [contradiction | reflexivity]. }
  split.
  { unfold getDay.
    replace (m + 7 * msPerDay - 1)
      with ((d + 6) * msPerDay + (msPerDay - 1) - tz)
      by (subst m; ring).
    rewrite localDay_of_midnight by (unfold msPerDay; lia).
    replace (d + 6 + 4) with (d + 4 - 1 + 1 * 7) by ring.
    rewrite Z.mod_add by lia.
    pose proof (Z.div_mod (d + 4) 7 ltac:(lia)) as E. rewrite Hday in E.
    replace (d + 4 - 1) with (0 + (d + 4) / 7 * 7) by lia.
    rewrite Z.mod_add by lia. reflexivity. }
  split.
  { replace (m + 7 * msPerDay - 1 + tz)
      with (msPerDay - 1 + (d + 6) * msPerDay) by (subst m; ring).
    rewrite Z.mod_add by (unfold msPerDay; lia).
    rewrite Z.mod_small by (unfold msPerDay; lia). reflexivity. }
  split; [exact Hmem|].
  split.
  - intros todo due Hin Hdue Hparse. apply Hmem. split; [exact Hin|].
    right. exists due, (m + 7 * msPerDay - 1).
    repeat split; auto; unfold msPerDay; lia.
  - intros todo due Hdue Hparse.
    assert (Hout : ~ withinRange tz legacy m (m + 7 * msPerDay - 1)
                                 (Todo.due_date todo)).
    { intros (x & t & Hx & Ht & Hr). rewrite Hdue in Hx.
      inversion Hx; subst. rewrite Hparse in Ht. inversion Ht; subst.
      unfold msPerDay in Hr. lia. }
    split.
    + unfold isDueThisWeek.
      destruct (withinWeek tz legacy now (Todo.due_date todo)) eqn:E;
        [| reflexivity].
      apply (withinWeek_withinRange _ Hm Hs) in E. contradiction.
    + intros Hc Hin. apply Hmem in Hin. destruct Hin as [_ [H | H]];
        contradiction.
Qed.

End WeekWindow.

(** ** Instances *)

Lemma week_window_witness :
  In dueSundayNight
     (TodoSummary.getWeekTodos kst noLegacyParse sampleNow [dueSundayNight]).
Proof.
  destruct (week_window kst noLegacyParse sampleNow [dueSundayNight])
    as (m & Hm & _ & _ & _ & _ & _ & _ & _ & _ & _ & Hkept & _).
  apply (Hkept dueSundayNight (lit "2026-01-04T23:59:59.999+09:00")).
  - left. reflexivity.
  - reflexivity.
  - vm_compute in Hm. inversion Hm. vm_compute. reflexivity.
Defined.

Lemma validateInput_rules_witness :
  valid (validateInput (JString (repeat 97%N 501))) = false.
Proof.
  destruct validateInput_rules as (_ & _ & _ & Hlong & _).
  apply Hlong. vm_compute. reflexivity.
Defined.

Lemma empty_check_precedes_configuration_witness :
  exists item items per,
    AnalyzeTodos.body oneTodoRequest =
      inr {| AnalyzeTodos.todos := AnalyzeTodos.TodosArray (item :: items);
             AnalyzeTodos.period := per |}.
Proof.
  destruct (empty_check_precedes_configuration unconfiguredEnv) as [_ H].
  destruct (H oneTodoRequest
              (AnalyzeTodos.failure 500 AnalyzeTodos.NotConfigured) 0%nat
              eq_refl eq_refl) as (_ & _ & Hbody).
  exact Hbody.
Defined.

(* ===================================================================== *)
(** * Further properties of the handlers and helpers                       *)
(* ===================================================================== *)

(** ** The generate-todo handler, path by path *)

Section GeneratePaths.

Import GenerateTodo.

Variable env : Env Prompt GeneratedTodo.

Ltac run_POST :=
  unfold Handler.run, POST, Handler.tryCatch, Handler.bind, Handler.await,
    Handler.ret, Handler.callGateway, Handler.throw; cbn [body].

Lemma validateInput_error_when_invalid :
  forall text, valid (validateInput text) = false ->
    exists e, validationError (validateInput text) = Some e.
Proof.
  intros [s |] H; [| exists ErrInvalid; reflexivity].
  rewrite validateInput_cases in *.
  destruct (strlen s =? 0)%nat; [eexists; reflexivity|].
  destruct (strlen (trim s) <? 2)%nat; [eexists; reflexivity|].
  destruct (500 <? strlen s)%nat; [eexists; reflexivity|].
  destruct (hasValidContent (trim s)); [discriminate H | eexists; reflexivity].
Qed.

Lemma validateInput_valid_is_string :
  forall text, valid (validateInput text) = true -> exists p, text = JString p.
Proof.
  intros [s |] H; [exists s; reflexivity | discriminate H].
Qed.

(** A prompt that [validateInput] refuses is answered 400 with the very
    message of the rule that refused it, before the API key is looked at
    and without a call to the gateway; the fallback message of the
    handler is never sent. *)
Theorem generate_rejects_invalid_prompt :
  forall text,
    valid (validateInput text) = false ->
    exists e,
      validationError (validateInput text) = Some e
      /\ Handler.run (POST env {| body := inr text |})
         = (inr (failure 400 (Rejected e)), 0%nat).
Proof.
  intros text H. destruct (validateInput_error_when_invalid text H) as [e He].
  exists e. split; [exact He|]. run_POST. rewrite H. cbn [negb].
  rewrite He. reflexivity.
Qed.

(** A valid prompt on a deployment whose API key is missing or empty is
    answered 500 'service not configured', and the gateway is not
    called. *)
Theorem generate_unconfigured :
  forall text,
    valid (validateInput text) = true ->
    truthy (apiKey env) = false ->
    Handler.run (POST env {| body := inr text |})
    = (inr (failure 500 NotConfigured), 0%nat).
Proof.
  intros text Hv Hk.
  destruct (validateInput_valid_is_string text Hv) as [p ->].
  run_POST. rewrite Hv, Hk. reflexivity.
Qed.

Lemma POST_valid_configured :
  forall p,
    valid (validateInput (JString p)) = true ->
    truthy (apiKey env) = true ->
    Handler.run (POST env {| body := inr (JString p) |})
    = match generateObject env (buildPrompt (preprocessInput p) (now env)) with
      | inr raw =>
          (inr (succeeded
                  (postprocessTodo (zone env) (legacyParse env) raw
                                   (currentDateOf (now env)))),
           1%nat)
      | inl e => (inr (onError e), 1%nat)
      end.
Proof.
  intros p Hv Hk. run_POST. rewrite Hv, Hk. cbn [negb].
  destruct (generateObject env _); reflexivity.
Qed.

(** A valid prompt on a configured deployment makes exactly one call to
    the gateway, with the normalised prompt and the date of the current
    day in UTC+9; what the gateway returns is repaired against that date
    and answered 200, what it raises goes to the catch block. *)
Theorem generate_calls_gateway_once :
  forall p,
    valid (validateInput (JString p)) = true ->
    truthy (apiKey env) = true ->
    exists q,
      processedPrompt q = preprocessInput p
      /\ currentDate q = currentDateOf (now env)
      /\ Handler.run (POST env {| body := inr (JString p) |})
         = match generateObject env q with
           | inr raw =>
               (inr (succeeded
                       (postprocessTodo (zone env) (legacyParse env) raw
                                        (currentDateOf (now env)))),
                1%nat)
           | inl e => (inr (onError e), 1%nat)
           end.
Proof.
  intros p Hv Hk. exists (buildPrompt (preprocessInput p) (now env)).
  split; [reflexivity|]. split; [reflexivity|].
  apply POST_valid_configured; assumption.
Qed.

Lemma generate_body_run :
  forall e, Handler.run (POST env {| body := inl e |}) = (inr (onError e), 0%nat).
Proof. reflexivity. Qed.

(** An exception thrown while the body is read (malformed JSON, a body
    that cannot be destructured) is classified by the catch block like a
    gateway failure, and the gateway is not called; a [SyntaxError] is
    answered 400. *)
Theorem generate_body_failure :
  forall e,
    Handler.run (POST env {| body := inl e |}) = (inr (onError e), 0%nat)
    /\ (nameIs e "SyntaxError" = true ->
        onError e = failure 400 BadJson).
Proof.
  intros e. split; [reflexivity|].
  intros H. unfold onError, isJsonError. rewrite H. reflexivity.
Qed.

Lemma onError_envelope :
  forall e,
    In (status (onError e)) [400; 401; 429; 500; 503; 504]
    /\ success (onError e) = false
    /\ data (onError e) = None
    /\ error (onError e) <> None.
Proof.
  intros e. unfold onError.
  destruct (isJsonError e), (isAuthError e), (isQuotaError e),
    (isTimeoutError e), (isNetworkError e), (isModelError e);
    simpl; repeat split; try discriminate; tauto.
Qed.

Lemma generate_run_envelope :
  forall request,
    exists r calls,
      Handler.run (POST env request) = (inr r, calls)
      /\ (calls <= 1)%nat
      /\ In (status r) [200; 400; 401; 429; 500; 503; 504]
      /\ (success r = true <-> status r = 200)
      /\ (success r = true -> data r <> None /\ error r = None)
      /\ (success r = false -> data r = None /\ error r <> None).
Proof.
  intros [[e | text]].
  - exists (onError e), 0%nat. split; [reflexivity|].
    destruct (onError_envelope e) as (Hs & Hf & Hd & He).
    split; [lia|]. split; [simpl in *; tauto|]. rewrite Hf.
    repeat split; try discriminate; auto.
    intros H200. rewrite H200 in Hs. simpl in Hs.
    repeat (destruct Hs as [Hs | Hs]; [discriminate Hs|]). contradiction.
  - destruct (valid (validateInput text)) eqn:Hv.
    + destruct (validateInput_valid_is_string text Hv) as [p ->].
      destruct (truthy (apiKey env)) eqn:Hk.
      * rewrite (POST_valid_configured p Hv Hk).
        destruct (generateObject env _) as [e | raw].
        -- exists (onError e), 1%nat. split; [reflexivity|].
           destruct (onError_envelope e) as (Hs & Hf & Hd & He).
           split; [lia|]. split; [simpl in *; tauto|]. rewrite Hf.
           repeat split; try discriminate; auto.
           intros H200. rewrite H200 in Hs. simpl in Hs.
           repeat (destruct Hs as [Hs | Hs]; [discriminate Hs|]).
           contradiction.
        -- eexists. exists 1%nat. split; [reflexivity|]. simpl.
           repeat split; auto; try discriminate.
      * exists (failure 500 NotConfigured), 0%nat.
        split; [run_POST; rewrite Hv, Hk; reflexivity|]. simpl.
        repeat split; auto; try discriminate; tauto.
    + destruct (validateInput_error_when_invalid text Hv) as [e He].
      exists (failure 400 (Rejected e)), 0%nat.
      split; [run_POST; rewrite Hv; cbn [negb]; rewrite He; reflexivity|].
      simpl. repeat split; auto; try discriminate; tauto.
Qed.

(** Every response the handler gives comes after at most one call to the
    gateway; its status is one of 200, 400, 401, 429, 500, 503 and 504;
    and it carries data exactly when it is a success, which is exactly
    when the status is 200, and an error message otherwise. The values
    thrown are those of [JsError], whose message is a string or absent,
    as that of an [Error] object is; on a thrown value with a message of
    another type the catch block itself throws and the handler gives no
    response, of which nothing is said here. *)
Theorem generate_response_envelope :
  forall request r calls,
    Handler.run (POST env request) = (inr r, calls) ->
    (calls <= 1)%nat
    /\ In (status r) [200; 400; 401; 429; 500; 503; 504]
    /\ (success r = true <-> status r = 200)
    /\ (success r = true -> data r <> None /\ error r = None)
    /\ (success r = false -> data r = None /\ error r <> None).
Proof.
  intros request r calls Hrun.
  destruct (generate_run_envelope request) as (r' & calls' & Hrun' & H).
  rewrite Hrun' in Hrun. inversion Hrun; subst. exact H.
Qed.

End GeneratePaths.

Lemma generate_rejects_invalid_prompt_witness :
  Handler.run (GenerateTodo.POST answeringEnv
                 {| GenerateTodo.body := inr (JString (lit "a")) |})
  = (inr (GenerateTodo.failure 400 (GenerateTodo.Rejected ErrTooShort)),
     0%nat).
Proof.
  destruct (generate_rejects_invalid_prompt answeringEnv
              (JString (lit "a")) eq_refl) as (e & He & Hrun).
  rewrite Hrun. inversion He. reflexivity.
Defined.

Lemma generate_unconfigured_witness :
  Handler.run (GenerateTodo.POST unconfiguredGenerateEnv
                 {| GenerateTodo.body := inr (JString (lit "buy milk")) |})
  = (inr (GenerateTodo.failure 500 GenerateTodo.NotConfigured), 0%nat).
Proof.
  apply (generate_unconfigured unconfiguredGenerateEnv
           (JString (lit "buy milk")) eq_refl eq_refl).
Defined.

Lemma generate_calls_gateway_once_witness :
  snd (Handler.run (GenerateTodo.POST answeringEnv
                      {| GenerateTodo.body := inr (JString (lit "buy milk")) |}))
  = 1%nat.
Proof.
  destruct (generate_calls_gateway_once answeringEnv (lit "buy milk")
              eq_refl eq_refl) as (q & _ & _ & Hrun).
  rewrite Hrun. reflexivity.
Defined.

Lemma generate_response_envelope_witness :
  (1 <= 1)%nat
  /\ In (GenerateTodo.status (GenerateTodo.failure 429 GenerateTodo.QuotaExceeded))
        [200; 400; 401; 429; 500; 503; 504].
Proof.
  destruct (@generate_response_envelope (failingEnv refusedOnPort4290)
              (promptRequest (lit "buy milk"))
              (GenerateTodo.failure 429 GenerateTodo.QuotaExceeded) 1%nat
              eq_refl) as (Hc & Hs & _).
  split; [exact Hc | exact Hs].
Defined.

Lemma generate_body_failure_witness :
  GenerateTodo.onError
    {| name := Some (lit "SyntaxError"); message := None; code := None |}
  = GenerateTodo.failure 400 GenerateTodo.BadJson.
Proof.
  apply (proj2 (generate_body_failure answeringEnv
                  {| name := Some (lit "SyntaxError"); message := None;
                     code := None |})).
  reflexivity.
Defined.

(** ** The analyze-todos handler, path by path *)

Section AnalyzePaths.

Import AnalyzeTodos.

Variable env : Env Prompt TodoAnalysis.

Ltac run_POST :=
  unfold Handler.run, POST, Handler.tryCatch, Handler.bind, Handler.await,
    Handler.ret, Handler.callGateway, Handler.throw; cbn [body todos period].

Lemma analyze_onError_envelope :
  forall e,
    In (status (onError e)) [401; 429; 500]
    /\ success (onError e) = false
    /\ data (onError e) = None
    /\ error (onError e) <> None.
Proof.
  intros e. unfold onError.
  repeat match goal with |- context [if ?b then _ else _] => destruct b end;
    simpl; repeat split; try discriminate; tauto.
Qed.

Lemma POST_nonempty_configured :
  forall item items per,
    validPeriod per = true ->
    truthy (apiKey env) = true ->
    Handler.run
      (POST env {| body := inr {| todos := TodosArray (item :: items);
                                  period := per |} |})
    = match generateObject env
              {| promptPeriod := per;
                 promptDate := currentDateOf (now env);
                 promptStatistics :=
                   statistics (zone env) (legacyParse env) (now env)
                              (item :: items);
                 promptTodos := item :: items |} with
      | inr a => (inr (succeeded a), 1%nat)
      | inl e => (inr (onError e), 1%nat)
      end.
Proof.
  intros item items per Hp Hk. run_POST. rewrite Hp, Hk.
  cbn [negb List.length Nat.eqb].
  destruct (generateObject env _); reflexivity.
Qed.

(** A body whose [todos] is not an array is answered 400 'a todo list is
    needed' whatever its period; an array with a period other than
    'today' and 'week' is answered 400 'bad period', the empty array
    included; neither reaches the gateway. *)
Theorem analyze_rejects_malformed_body :
  forall b,
    todos b = TodosOther \/ validPeriod (period b) = false ->
    exists msg,
      Handler.run (POST env {| body := inr b |})
      = (inr (failure 400 msg), 0%nat)
      /\ (todos b = TodosOther -> msg = NeedTodos)
      /\ (forall items, todos b = TodosArray items -> msg = BadPeriod).
Proof.
  intros [[items |] per] H; cbn [todos period] in H.
  - destruct H as [H | H]; [discriminate H|].
    exists BadPeriod. split; [run_POST; rewrite H; reflexivity|].
    split; [discriminate | reflexivity].
  - exists NeedTodos. split; [reflexivity|].
    split; [reflexivity | discriminate].
Qed.

(** A non-empty list with a valid period on a deployment whose API key is
    missing or empty is answered 500 'service not configured', and the
    gateway is not called. *)
Theorem analyze_unconfigured :
  forall item items per,
    validPeriod per = true ->
    truthy (apiKey env) = false ->
    Handler.run
      (POST env {| body := inr {| todos := TodosArray (item :: items);
                                  period := per |} |})
    = (inr (failure 500 NotConfigured), 0%nat).
Proof.
  intros item items per Hp Hk. run_POST. rewrite Hp, Hk. reflexivity.
Qed.

(** A non-empty list of todo records (each with its string fields, its
    category list and its completion flag, as [Todo.t] has them) with a
    valid period on a configured deployment makes exactly one call to the
    gateway, with the statistics of the very list that was sent; the
    analysis the gateway returns is answered 200 untouched, and what it
    raises goes to the catch block. An array with an item that is no
    such record, on which the statistics throw before the gateway is
    called, is not a value of [TodosArray]; nothing is said of it. *)
Theorem analyze_calls_gateway_once :
  forall item items per,
    validPeriod per = true ->
    truthy (apiKey env) = true ->
    exists q,
      promptTodos q = item :: items
      /\ promptPeriod q = per
      /\ promptStatistics q
         = statistics (zone env) (legacyParse env) (now env) (item :: items)
      /\ Handler.run
           (POST env {| body := inr {| todos := TodosArray (item :: items);
                                       period := per |} |})
         = match generateObject env q with
           | inr a => (inr (succeeded a), 1%nat)
           | inl e => (inr (onError e), 1%nat)
           end.
Proof.
  intros item items per Hp Hk. eexists.
  split; [| split; [| split; [| apply POST_nonempty_configured; assumption]]];
    reflexivity.
Qed.

Lemma analyze_run_envelope :
  forall request,
    exists r calls,
      Handler.run (POST env request) = (inr r, calls)
      /\ (calls <= 1)%nat
      /\ In (status r) [200; 400; 401; 429; 500]
      /\ (success r = true <-> status r = 200)
      /\ (success r = true -> data r <> None /\ error r = None)
      /\ (success r = false -> data r = None /\ error r <> None).
Proof.
  assert (Herr : forall e calls, (calls <= 1)%nat ->
            (calls <= 1)%nat
            /\ In (status (onError e)) [200; 400; 401; 429; 500]
            /\ (success (onError e) = true <-> status (onError e) = 200)
            /\ (success (onError e) = true ->
                data (onError e) <> None /\ error (onError e) = None)
            /\ (success (onError e) = false ->
                data (onError e) = None /\ error (onError e) <> None)).
  { intros e calls Hc.
    destruct (analyze_onError_envelope e) as (Hs & Hf & Hd & He).
    split; [exact Hc|]. split; [simpl in *; tauto|]. rewrite Hf.
    repeat split; try discriminate; auto.
    intros H200. rewrite H200 in Hs. simpl in Hs.
    repeat (destruct Hs as [Hs | Hs]; [discriminate Hs|]). contradiction. }
  assert (Hfail : forall st msg calls,
            In st [400; 500] -> (calls <= 1)%nat ->
            (calls <= 1)%nat
            /\ In (status (failure st msg)) [200; 400; 401; 429; 500]
            /\ (success (failure st msg) = true <->
                status (failure st msg) = 200)
            /\ (success (failure st msg) = true ->
                data (failure st msg) <> None /\ error (failure st msg) = None)
            /\ (success (failure st msg) = false ->
                data (failure st msg) = None
                /\ error (failure st msg) <> None)).
  { intros st msg calls Hst Hc. simpl in *.
    repeat split; auto; try discriminate; try tauto.
    intros ->. repeat (destruct Hst as [Hst | Hst]; [discriminate Hst|]).
    contradiction. }
  intros [[e | [td per]]].
  - exists (onError e), 0%nat. split; [reflexivity | apply Herr; lia].
  - destruct td as [items |].
    2:{ exists (failure 400 NeedTodos), 0%nat.
        split; [reflexivity | apply Hfail; simpl; auto]. }
    destruct (validPeriod per) eqn:Hp.
    2:{ exists (failure 400 BadPeriod), 0%nat.
        split; [run_POST; rewrite Hp; reflexivity | apply Hfail; simpl; auto]. }
    destruct items as [| item items].
    { eexists. exists 0%nat.
      split; [run_POST; rewrite Hp; reflexivity|]. simpl.
      repeat split; auto; try discriminate. }
    destruct (truthy (apiKey env)) eqn:Hk.
    + rewrite (POST_nonempty_configured item items per Hp Hk).
      destruct (generateObject env _) as [e | a].
      * exists (onError e), 1%nat. split; [reflexivity | apply Herr; lia].
      * eexists. exists 1%nat. split; [reflexivity|]. simpl.
        repeat split; auto; try discriminate.
    + exists (failure 500 NotConfigured), 0%nat.
      split; [run_POST; rewrite Hp, Hk; reflexivity | apply Hfail; simpl; auto].
Qed.

(** Every response the handler gives to a request whose todo list, when
    it is an array, holds todo records comes after at most one call to
    the gateway; its status is one of 200, 400, 401, 429 and 500, so that
    a timeout or a refused connection, which the generate-todo handler
    answers 504 and 503, is answered 500 here unless its message reads
    as an auth or quota failure; the response carries data exactly when
    it is a success. The values thrown are those of [JsError], whose
    message is a string or absent; on a thrown value with a message of
    another type the catch block itself throws and the handler gives no
    response, of which nothing is said here. *)
Theorem analyze_response_envelope :
  forall request r calls,
    Handler.run (POST env request) = (inr r, calls) ->
    (calls <= 1)%nat
    /\ In (status r) [200; 400; 401; 429; 500]
    /\ (success r = true <-> status r = 200)
    /\ (success r = true -> data r <> None /\ error r = None)
    /\ (success r = false -> data r = None /\ error r <> None).
Proof.
  intros request r calls Hrun.
  destruct (analyze_run_envelope request) as (r' & calls' & Hrun' & H).
  rewrite Hrun' in Hrun. inversion Hrun; subst. exact H.
Qed.

End AnalyzePaths.

Lemma analyze_rejects_malformed_body_witness :
  exists msg,
    Handler.run
      (AnalyzeTodos.POST configuredEnv
         {| AnalyzeTodos.body :=
              inr (analyzeBody (AnalyzeTodos.TodosArray [])
                               (JString (lit "month"))) |})
    = (inr (AnalyzeTodos.failure 400 msg), 0%nat)
    /\ msg = AnalyzeTodos.BadPeriod.
Proof.
  destruct (analyze_rejects_malformed_body configuredEnv
              (analyzeBody (AnalyzeTodos.TodosArray []) (JString (lit "month")))
              (or_intror eq_refl)) as (msg & Hrun & _ & Hmsg).
  exists msg. split; [exact Hrun | exact (Hmsg [] eq_refl)].
Defined.

Lemma analyze_response_envelope_witness :
  (1 <= 1)%nat
  /\ In (AnalyzeTodos.status (AnalyzeTodos.succeeded sampleAnalysis))
        [200; 400; 401; 429; 500].
Proof.
  destruct (@analyze_response_envelope configuredEnv oneTodoRequest
              (AnalyzeTodos.succeeded sampleAnalysis) 1%nat eq_refl)
    as (Hc & Hs & _).
  split; [exact Hc | exact Hs].
Defined.

Lemma analyze_unconfigured_witness :
  Handler.run (AnalyzeTodos.POST unconfiguredEnv oneTodoRequest)
  = (inr (AnalyzeTodos.failure 500 AnalyzeTodos.NotConfigured), 0%nat).
Proof.
  apply (analyze_unconfigured unconfiguredEnv dueSundayNight []
           (JString (lit "week")) eq_refl eq_refl).
Defined.

Lemma analyze_calls_gateway_once_witness :
  Handler.run (AnalyzeTodos.POST configuredEnv oneTodoRequest)
  = (inr (AnalyzeTodos.succeeded sampleAnalysis), 1%nat).
Proof.
  destruct (analyze_calls_gateway_once configuredEnv dueSundayNight []
              (JString (lit "week")) eq_refl eq_refl) as (q & _ & _ & _ & Hrun).
  unfold oneTodoRequest. rewrite Hrun. reflexivity.
Defined.

(** ** More on the sanitizer *)

Section Sanitizer.

Local Open Scope nat_scope.

Lemma nonWhite_dropWhile :
  forall s, nonWhite (dropWhile isWhiteSpace s) = nonWhite s.
Proof.
  induction s as [| c s IH]; simpl; [reflexivity|].
  destruct (isWhiteSpace c) eqn:E; simpl; [exact IH | now rewrite E].
Qed.

Lemma nonWhite_trim : forall s, nonWhite (trim s) = nonWhite s.
Proof.
  intros s. unfold trim, trimEnd, trimStart, nonWhite.
  rewrite filter_rev. fold (nonWhite (dropWhile isWhiteSpace
                                        (rev (dropWhile isWhiteSpace s)))).
  rewrite nonWhite_dropWhile. unfold nonWhite. rewrite filter_rev.
  rewrite rev_involutive. apply nonWhite_dropWhile.
Qed.

Lemma nonWhite_replaceRuns :
  forall s b, nonWhite (replaceRuns isWhiteSpace SPACE b s) = nonWhite s.
Proof.
  induction s as [| c s IH]; intros b; simpl; [reflexivity|].
  destruct (isWhiteSpace c) eqn:E; simpl.
  - destruct b; simpl; apply IH.
  - rewrite E. simpl. now rewrite IH.
Qed.

Lemma replaceRuns_length_le :
  forall cls r s b,
    List.length (replaceRuns cls r b s) <= List.length s.
Proof.
  induction s as [| c s IH]; intros b; simpl; [lia|].
  destruct (cls c); [destruct b|]; simpl;
    match goal with |- context [replaceRuns cls r ?x s] =>
      specialize (IH x) end; lia.
Qed.

Lemma validChar_not_white :
  forall c, isValidContentChar c = true -> isWhiteSpace c = false.
Proof.
  intros c H. unfold isValidContentChar, isWhiteSpace, in_range in *.
  repeat rewrite orb_true_iff in H. repeat rewrite andb_true_iff in H.
  repeat rewrite N.leb_le in H.
  repeat rewrite orb_false_iff. repeat rewrite andb_false_iff.
  repeat rewrite N.leb_gt. repeat rewrite N.eqb_neq.
  repeat split; lia.
Qed.

(** Whatever the input, the normalised text neither begins nor ends with
    white space, holds white space only as single spaces between other
    characters, keeps every character that is not white space, in order,
    and is never longer than the input. *)
Theorem preprocessInput_shape :
  forall s,
    trim (preprocessInput s) = preprocessInput s
    /\ singleSpaced false (preprocessInput s) = true
    /\ nonWhite (preprocessInput s) = nonWhite s
    /\ strlen (preprocessInput s) <= strlen s.
Proof.
  intros s. rewrite preprocessInput_spaces. repeat split.
  - apply trim_clean.
    + apply replaceRuns_headClean, trim_headClean.
    + apply replaceRuns_lastClean, trim_lastClean.
  - apply replaceRuns_singleSpaced.
  - rewrite nonWhite_replaceRuns. apply nonWhite_trim.
  - unfold strlen. etransitivity; [apply replaceRuns_length_le|].
    apply trim_length_le.
Qed.

(** Normalisation keeps a valid prompt valid: what the handler sends to
    the model would itself pass [validateInput]. *)
Theorem preprocessInput_keeps_valid :
  forall p,
    valid (validateInput (JString p)) = true ->
    valid (validateInput (JString (preprocessInput p))) = true.
Proof.
  intros p H. rewrite validateInput_cases in H.
  destruct (strlen p =? 0) eqn:E0; [discriminate H|].
  destruct (Nat.ltb_spec (strlen (trim p)) 2) as [E1 | E1]; [discriminate H|].
  destruct (Nat.ltb_spec 500 (strlen p)) as [E2 | E2]; [discriminate H|].
  destruct (hasValidContent (trim p)) eqn:E3; [| discriminate H].
  pose proof (preprocessInput_spaces p) as Hp.
  assert (Htrim : trim (preprocessInput p) = preprocessInput p).
  { rewrite Hp. apply trim_clean.
    - apply replaceRuns_headClean, trim_headClean.
    - apply replaceRuns_lastClean, trim_lastClean. }
  assert (Hlen : 2 <= strlen (preprocessInput p)).
  { rewrite Hp. pose proof (trim_headClean p) as Hh.
    pose proof (trim_lastClean p) as Hl.
    destruct (trim p) as [| c rest] eqn:Et; [simpl in E1; lia|].
    simpl in Hh. simpl. rewrite Hh.
    destruct rest as [| c' rest']; [simpl in E1; lia|].
    destruct (exists_last (l := c' :: rest') ltac:(discriminate))
      as (front & x & Hx).
    rewrite Hx in *. unfold lastClean in Hl.
    change (c :: front ++ [x]) with ((c :: front) ++ [x]) in Hl.
    rewrite rev_app_distr in Hl. simpl in Hl.
    rewrite replaceRuns_snoc by exact Hl.
    unfold strlen. simpl. rewrite length_app. simpl. lia. }
  assert (Hmax : strlen (preprocessInput p) <= 500).
  { rewrite Hp. unfold strlen. etransitivity; [apply replaceRuns_length_le|].
    pose proof (trim_length_le p). unfold strlen in *. lia. }
  assert (Hcontent : hasValidContent (preprocessInput p) = true).
  { apply existsb_exists in E3. destruct E3 as (c & Hin & Hc).
    apply existsb_exists. exists c. split; [| exact Hc].
    assert (Hn : In c (nonWhite (preprocessInput p))).
    { rewrite Hp, nonWhite_replaceRuns. unfold nonWhite.
      apply filter_In. split; [exact Hin|].
      now rewrite (validChar_not_white c Hc). }
    unfold nonWhite in Hn. apply filter_In in Hn. tauto. }
  rewrite validateInput_cases, Htrim, Hcontent.
  destruct (Nat.eqb_spec (strlen (preprocessInput p)) 0); [lia|].
  destruct (Nat.ltb_spec (strlen (preprocessInput p)) 2); [lia|].
  destruct (Nat.ltb_spec 500 (strlen (preprocessInput p))); [lia|].
  reflexivity.
Qed.

End Sanitizer.

Lemma preprocessInput_keeps_valid_witness :
  valid (validateInput (JString (preprocessInput (lit "  buy   milk ")))) = true.
Proof.
  apply (preprocessInput_keeps_valid (lit "  buy   milk ")). reflexivity.
Defined.

(** ** More on the repair pass *)

Section Repair.

Variable tz : Z.
Variable legacy : jsstring -> JsDate.

Lemma trim_idempotent : forall s, trim (trim s) = trim s.
Proof.
  intros s. apply trim_clean; [apply trim_headClean | apply trim_lastClean].
Qed.

Lemma trim_truncated :
  forall t,
    (100 < strlen (trim t))%nat ->
    trim (substring0 97 (trim t) ++ lit "...")
    = substring0 97 (trim t) ++ lit "...".
Proof.
  intros t Hlen. apply trim_clean.
  - pose proof (trim_headClean t) as Hh.
    destruct (trim t) as [| c rest]; [simpl in Hlen; lia|].
    simpl in *. exact Hh.
  - unfold lastClean. rewrite rev_app_distr. reflexivity.
Qed.

Lemma date_lt_irrefl : forall d, date_lt d d = false.
Proof.
  intros [x |]; simpl; [apply Z.ltb_irrefl | reflexivity].
Qed.

Lemma repaired_title_fixed :
  forall t,
    (2 <= strlen t <= 100)%nat -> trim t = t ->
    match t with
    | _ :: _ =>
        (if (strlen
               (if (100 <? strlen (trim t))%nat
                then substring0 97 (trim t) ++ lit "..." else trim t) <? 2)%nat
         then fallbackTitle
         else if (100 <? strlen (trim t))%nat
              then substring0 97 (trim t) ++ lit "..." else trim t)
    | [] => fallbackTitle
    end = t.
Proof.
  intros t Hlen Ht. destruct t as [| c t']; [simpl in Hlen; lia|].
  rewrite Ht.
  destruct (Nat.ltb_spec 100 (strlen (c :: t'))); [lia|].
  destruct (Nat.ltb_spec (strlen (c :: t')) 2); [lia | reflexivity].
Qed.

(** Repairing a repaired record against the same date changes nothing. *)
Theorem postprocessTodo_idempotent :
  forall raw today,
    postprocessTodo tz legacy (postprocessTodo tz legacy raw today) today
    = postprocessTodo tz legacy raw today.
Proof.
  intros [ti de dd dt pr ca] today.
  unfold postprocessTodo at 1.
  set (r := postprocessTodo tz legacy _ today).
  assert (Ht : exists t, title r = Some t
                         /\ (2 <= strlen t <= 100)%nat /\ trim t = t).
  { subst r. unfold postprocessTodo. cbn [title].
    destruct ti as [[| c t0] |].
    - exists fallbackTitle. repeat split; simpl; lia.
    - pose proof (title_bounds (c :: t0)) as B. cbv zeta in B.
      eexists. split; [reflexivity|]. split; [exact B|].
      destruct (Nat.ltb_spec 100 (strlen (trim (c :: t0)))) as [L | L].
      + assert (Hl : strlen (substring0 97 (trim (c :: t0)) ++ lit "...")
                     = 100%nat).
        { unfold strlen, substring0 in *.
          rewrite length_app, length_firstn.
          change (List.length (lit "...")) with 3%nat. lia. }
        rewrite Hl. cbn [Nat.ltb Nat.leb]. now apply trim_truncated.
      + destruct (Nat.ltb_spec (strlen (trim (c :: t0))) 2);
          [reflexivity | apply trim_idempotent].
    - exists fallbackTitle. repeat split; simpl; lia. }
  assert (Hd : description r = None \/ description r = Some []
               \/ exists c d, description r = Some (c :: d)
                              /\ trim (c :: d) = c :: d).
  { subst r. unfold postprocessTodo. cbn [description].
    destruct de as [[| c d0] |]; auto.
    destruct (trim (c :: d0)) as [| c' d'] eqn:E; simpl; auto.
    right. right. exists c', d'. split; [reflexivity|].
    rewrite <- E. apply trim_idempotent. }
  assert (Hdd : due_date r = None \/ due_date r = Some []
                \/ exists c d, due_date r = Some (c :: d)
                   /\ date_lt (setHours tz 0 0 0 0 (newDate tz legacy (c :: d)))
                              (setHours tz 0 0 0 0 (newDate tz legacy today))
                      = false).
  { subst r. unfold postprocessTodo. cbn [due_date].
    destruct dd as [[| c d0] |]; auto.
    destruct (date_lt _ _) eqn:E.
    - destruct today as [| c' t']; auto.
      right. right. exists c', t'. split; [reflexivity | apply date_lt_irrefl].
    - right. right. exists c, d0. split; [reflexivity | exact E]. }
  assert (Hp : exists c p, priority r = Some (c :: p)
                           /\ arrayIncludes validPriorities (c :: p) = true).
  { subst r. unfold postprocessTodo. cbn [priority].
    destruct pr as [[| c p0] |]; try (eexists; eexists; split; reflexivity).
    destruct (arrayIncludes validPriorities (c :: p0)) eqn:E.
    - exists c, p0. split; [reflexivity | exact E].
    - eexists; eexists; split; reflexivity. }
  assert (Hc : exists c cs, category r = Some (c :: cs)).
  { subst r. unfold postprocessTodo. cbn [category].
    destruct ca as [[| c cs] |]; eexists; eexists; reflexivity. }
  assert (Hdt : due_time r = None \/ due_time r = Some []
                \/ exists c t, due_time r = Some (c :: t)
                               /\ timeRegex (c :: t) = true).
  { subst r. unfold postprocessTodo. cbn [due_time].
    destruct dt as [[| c t0] |]; auto.
    right. right. destruct (timeRegex (c :: t0)) eqn:E.
    - exists c, t0. split; [reflexivity | exact E].
    - eexists; eexists; split; reflexivity. }
  destruct Ht as (t & Et & Hlen & Htrim).
  destruct Hp as (pc & pp & Ep & Hvalid).
  destruct Hc as (cc & cs & Ec).
  destruct r as [rt rde rdd rdt rp rc]. cbn [title description due_date
                                              due_time priority category] in *.
  subst rt rp rc. rewrite Hvalid.
  f_equal.
  - f_equal. apply repaired_title_fixed; assumption.
  - destruct Hd as [-> | [-> | (c & d & -> & Hfix)]]; try reflexivity.
    rewrite Hfix. reflexivity.
  - destruct Hdd as [-> | [-> | (c & d & -> & Hfix)]]; try reflexivity.
    rewrite Hfix. reflexivity.
  - destruct Hdt as [-> | [-> | (c & d & -> & Hfix)]]; try reflexivity.
    rewrite Hfix. reflexivity.
Qed.

(** The description of a repaired record is absent, empty or trimmed and
    not empty: a description of white space only is dropped, while the
    empty string, which the guard takes for absent, stays as it is. *)
Theorem postprocessTodo_description :
  forall raw today,
    let r := postprocessTodo tz legacy raw today in
    (forall d, description r = Some d -> d = [] \/ (d <> [] /\ trim d = d))
    /\ (forall d, description raw = Some d -> d <> [] -> trim d = [] ->
        description r = None)
    /\ (forall d, description raw = Some d -> trim d <> [] ->
        description r = Some (trim d))
    /\ (description raw = Some [] -> description r = Some []).
Proof.
  intros [ti de dd dt pr ca] today r. subst r. unfold postprocessTodo.
  cbn [description]. repeat split.
  - intros d Hd. destruct de as [[| c d0] |]; [| | discriminate].
    + inversion Hd. now left.
    + destruct (trim (c :: d0)) as [| c' d'] eqn:E; simpl in Hd;
        [discriminate|]. inversion Hd; subst. right.
      split; [discriminate|]. rewrite <- E. apply trim_idempotent.
  - intros d Hd Hne Ht. inversion Hd; subst. destruct d; [now elim Hne|].
    rewrite Ht. reflexivity.
  - intros d Hd Ht. inversion Hd; subst. destruct d as [| c d0].
    + now elim Ht.
    + destruct (trim (c :: d0)); [now elim Ht | reflexivity].
  - intros Hd. inversion Hd. reflexivity.
Qed.

End Repair.

Lemma timeString_chars :
  forall h m,
    timeString h m
    = [digitChar (h / 10); digitChar h; ch ":"; digitChar (m / 10); digitChar m].
Proof. reflexivity. Qed.

Lemma timeRegex_timeString_nat :
  forall n k, (n <= 23)%nat -> (k <= 59)%nat ->
    timeRegex (timeString (Z.of_nat n) (Z.of_nat k)) = true.
Proof.
  intros n k Hn Hk.
  do 24 (destruct n as [| n];
         [ do 60 (destruct k as [| k]; [vm_compute; reflexivity|]); lia |]).
  lia.
Qed.

(** The due-time pattern accepts exactly the two-digit renderings of an
    hour from 0 to 23 and a minute from 0 to 59 around a colon. *)
Theorem timeRegex_accepts_clock_times :
  forall s,
    timeRegex s = true <->
    exists h m, 0 <= h <= 23 /\ 0 <= m <= 59 /\ s = timeString h m.
Proof.
  intros s. split.
  - intros H. unfold timeRegex in H.
    destruct s as [| a [| b [| c [| d [| e [| x s']]]]]]; try discriminate H.
    unfold in_range in H.
    repeat rewrite andb_true_iff in H. repeat rewrite orb_true_iff in H.
    repeat rewrite andb_true_iff in H.
    repeat rewrite N.leb_le in H. repeat rewrite N.eqb_eq in H.
    destruct H as [[[Hh Hc] Hd] He].
    exists (10 * (Z.of_N a - 48) + (Z.of_N b - 48)),
           (10 * (Z.of_N d - 48) + (Z.of_N e - 48)).
    split; [lia|]. split; [lia|].
    rewrite timeString_chars. unfold digitChar, ch. simpl N_of_ascii.
    assert (Ea : forall p q : N, (48 <= p <= 57)%N -> (48 <= q <= 57)%N ->
                 Z.to_N (48 + ((10 * (Z.of_N p - 48) + (Z.of_N q - 48)) / 10)
                              mod 10) = p
                 /\ Z.to_N (48 + (10 * (Z.of_N p - 48) + (Z.of_N q - 48))
                                 mod 10) = q).
    { intros p q Hp Hq.
      assert (D1 : (10 * (Z.of_N p - 48) + (Z.of_N q - 48)) / 10
                   = Z.of_N p - 48).
      { rewrite Z.mul_comm, Z.div_add_l by lia.
        rewrite Z.div_small by lia. lia. }
      assert (D2 : (10 * (Z.of_N p - 48) + (Z.of_N q - 48)) mod 10
                   = Z.of_N q - 48).
      { rewrite Z.add_comm, Z.mul_comm, Z.mod_add by lia.
        apply Z.mod_small. lia. }
      rewrite D1, D2. rewrite Z.mod_small by lia. split; lia. }
    destruct (Ea a b ltac:(lia) ltac:(lia)) as [-> ->].
    destruct (Ea d e ltac:(lia) ltac:(lia)) as [-> ->].
    now subst c.
  - intros (h & m & Hh & Hm & ->).
    replace h with (Z.of_nat (Z.to_nat h)) by lia.
    replace m with (Z.of_nat (Z.to_nat m)) by lia.
    apply timeRegex_timeString_nat; lia.
Qed.

(** ** Counting *)

Section Counting.

Local Open Scope nat_scope.

Context {A : Type}.

Lemma count_le_length : forall (p : A -> bool) l, count p l <= List.length l.
Proof. intros p l. apply filter_length_le. Qed.

Lemma count_complement :
  forall (p : A -> bool) l,
    count p l + count (fun x => negb (p x)) l = List.length l.
Proof.
  intros p l. unfold count. induction l as [| x l IH]; simpl; [reflexivity|].
  destruct (p x); simpl; lia.
Qed.

Lemma count_implies :
  forall (p q : A -> bool) l,
    (forall x, p x = true -> q x = true) -> count p l <= count q l.
Proof.
  intros p q l H. unfold count. induction l as [| x l IH]; simpl; [lia|].
  destruct (p x) eqn:P.
  - rewrite (H x P). simpl. lia.
  - destruct (q x); simpl; lia.
Qed.

Lemma count_disjoint2 :
  forall (p q r : A -> bool) l,
    (forall x, p x = true -> r x = true) ->
    (forall x, q x = true -> r x = true) ->
    (forall x, p x = true -> q x = false) ->
    count p l + count q l <= count r l.
Proof.
  intros p q r l Hp Hq Hd. unfold count.
  induction l as [| x l IH]; simpl; [lia|].
  destruct (p x) eqn:P.
  - rewrite (Hd x P), (Hp x P). simpl. lia.
  - destruct (q x) eqn:Q.
    + rewrite (Hq x Q). simpl. lia.
    + destruct (r x); simpl; lia.
Qed.

Lemma count_disjoint3 :
  forall (p q o r : A -> bool) l,
    (forall x, p x = true -> r x = true) ->
    (forall x, q x = true -> r x = true) ->
    (forall x, o x = true -> r x = true) ->
    (forall x, p x = true -> q x = false /\ o x = false) ->
    (forall x, q x = true -> o x = false) ->
    count p l + count q l + count o l <= count r l.
Proof.
  intros p q o r l Hp Hq Ho Hd1 Hd2. unfold count.
  induction l as [| x l IH]; simpl; [lia|].
  destruct (p x) eqn:P.
  - destruct (Hd1 x P) as [-> ->]. rewrite (Hp x P). simpl. lia.
  - destruct (q x) eqn:Q.
    + rewrite (Hd2 x Q), (Hq x Q). simpl. lia.
    + destruct (o x) eqn:O.
      * rewrite (Ho x O). simpl. lia.
      * destruct (r x); simpl; lia.
Qed.

Lemma count_partition3 :
  forall (p q o : A -> bool) l,
    (forall x, In x l ->
       (p x = true /\ q x = false /\ o x = false)
       \/ (p x = false /\ q x = true /\ o x = false)
       \/ (p x = false /\ q x = false /\ o x = true)) ->
    count p l + count q l + count o l = List.length l.
Proof.
  intros p q o l H. unfold count.
  induction l as [| x l IH]; simpl; [reflexivity|].
  assert (IH' := IH (fun y Hy => H y (or_intror Hy))).
  destruct (H x (or_introl eq_refl)) as [(-> & -> & ->) | [(-> & -> & ->)
                                                          | (-> & -> & ->)]];
    simpl; lia.
Qed.

End Counting.

Lemma literal_eqb_exclusive :
  forall s a b,
    JsString.eqb (lit a) (lit b) = false ->
    JsString.eqb s (lit a) = true -> JsString.eqb s (lit b) = false.
Proof.
  intros s a b Hab Ha. apply jsstring_eqb_eq in Ha. now subst s.
Qed.

(** ** Statistics of the analyze-todos handler *)

Section AnalyzeStatistics.

Import AnalyzeTodos.
Local Open Scope nat_scope.

Variable tz : Z.
Variable legacy : jsstring -> JsDate.
Variable now : Z.

Lemma pendingDue_facts :
  forall t due,
    pendingDue t = Some due ->
    Todo.completed t = false /\ truthy (Todo.due_date t) = true
    /\ Todo.due_date t = Some due.
Proof.
  intros t due H. unfold pendingDue in H.
  destruct (truthy (Todo.due_date t)) eqn:E1; [| discriminate H].
  destruct (Todo.completed t) eqn:E2; [discriminate H|].
  simpl in H. auto.
Qed.

(** The counts of the handler add up: completed and incomplete make the
    total; of each priority no more are completed than there are; the
    three priorities together never exceed the total, nor their completed
    ones the completed total. *)
Theorem statistics_counts :
  forall ts,
    let st := statistics tz legacy now ts in
    totalTodos st = List.length ts
    /\ completedTodos st + incompleteTodos st = totalTodos st
    /\ highCompleted st <= highPriority st
    /\ mediumCompleted st <= mediumPriority st
    /\ lowCompleted st <= lowPriority st
    /\ highPriority st + mediumPriority st + lowPriority st <= totalTodos st
    /\ highCompleted st + mediumCompleted st + lowCompleted st
       <= completedTodos st
    /\ todosWithDueDate st <= totalTodos st.
Proof.
  intros ts st. subst st. unfold statistics.
  cbn [totalTodos completedTodos incompleteTodos highPriority mediumPriority
       lowPriority highCompleted mediumCompleted lowCompleted todosWithDueDate].
  pose proof (count_le_length Todo.completed ts) as Hc.
  assert (X1 : forall t, hasPriority "high" t = true ->
                         hasPriority "medium" t = false
                         /\ hasPriority "low" t = false).
  { intros t H. unfold hasPriority in *.
    split; eapply literal_eqb_exclusive; try exact H; reflexivity. }
  assert (X2 : forall t, hasPriority "medium" t = true ->
                         hasPriority "low" t = false).
  { intros t H. unfold hasPriority in *.
    eapply literal_eqb_exclusive; try exact H; reflexivity. }
  split; [reflexivity|]. split; [lia|].
  split; [apply count_implies; intros t H; apply andb_prop in H; tauto|].
  split; [apply count_implies; intros t H; apply andb_prop in H; tauto|].
  split; [apply count_implies; intros t H; apply andb_prop in H; tauto|].
  split.
  { etransitivity; [| apply (count_le_length (fun _ => true))].
    apply count_disjoint3; auto. }
  split.
  { apply count_disjoint3; intros t H; try (apply andb_prop in H; tauto).
    - apply andb_prop in H. destruct H as [H _].
      destruct (X1 t H) as [-> ->]. auto.
    - apply andb_prop in H. destruct H as [H _]. now rewrite (X2 t H). }
  apply count_le_length.
Qed.

(** No completed todo and no todo without due date is counted overdue,
    due today or due this week; no todo is counted both overdue and due
    this week; so those counts stay within the incomplete todos and
    within the todos that have a due date. *)
Theorem statistics_due_counts :
  forall ts,
    let st := statistics tz legacy now ts in
    (forall t, isOverdue tz legacy now t = true
               \/ isDueToday now t = true
               \/ isDueThisWeek tz legacy now t = true ->
               Todo.completed t = false /\ truthy (Todo.due_date t) = true)
    /\ (forall t, isOverdue tz legacy now t = true ->
                  isDueThisWeek tz legacy now t = false)
    /\ overdueCount st + dueThisWeekCount st <= incompleteTodos st
    /\ overdueCount st + dueThisWeekCount st <= todosWithDueDate st
    /\ dueTodayCount st <= incompleteTodos st
    /\ dueTodayCount st <= todosWithDueDate st.
Proof.
  intros ts st. subst st.
  assert (F : forall t, isOverdue tz legacy now t = true
                        \/ isDueToday now t = true
                        \/ isDueThisWeek tz legacy now t = true ->
                        Todo.completed t = false
                        /\ truthy (Todo.due_date t) = true).
  { intros t H. unfold isOverdue, isDueToday, isDueThisWeek in H.
    destruct (pendingDue t) as [due |] eqn:E.
    - destruct (pendingDue_facts t E) as (H1 & H2 & _). auto.
    - destruct H as [H | [H | H]]; discriminate H. }
  assert (X : forall t, isOverdue tz legacy now t = true ->
                        isDueThisWeek tz legacy now t = false).
  { intros t H. unfold isOverdue, isDueThisWeek in *.
    destruct (pendingDue t) as [due |]; [| reflexivity].
    unfold date_ge, date_le, date_lt in *.
    destruct (newDate tz legacy due) as [d |]; [| discriminate H].
    destruct (newDate tz legacy (currentDateOf now)) as [c |];
      [| discriminate H].
    apply Z.ltb_lt in H. apply andb_false_iff. left. apply Z.leb_gt. exact H. }
  assert (I : incompleteTodos (statistics tz legacy now ts)
              = count (fun t => negb (Todo.completed t)) ts).
  { unfold statistics. cbn [incompleteTodos].
    pose proof (count_complement Todo.completed ts). lia. }
  split; [exact F|]. split; [exact X|]. rewrite I.
  unfold statistics. cbn [overdueCount dueThisWeekCount dueTodayCount
                          todosWithDueDate].
  repeat split.
  - apply count_disjoint2; auto; intros t H;
      destruct (F t) as [-> _]; auto.
  - apply count_disjoint2; auto; intros t H; apply F; auto.
  - apply count_implies. intros t H. destruct (F t) as [-> _]; auto.
  - apply count_implies. intros t H. apply F; auto.
Qed.

(** The three hour buckets are disjoint and hold only todos with a due
    date that parses: morning, afternoon and evening together never
    exceed the todos with a due date, and a todo due between midnight and
    six in the morning is in none of them. *)
Theorem statistics_hour_buckets :
  forall ts,
    let st := statistics tz legacy now ts in
    morningCount st + afternoonCount st + eveningCount st
    <= todosWithDueDate st
    /\ (forall t due d,
          Todo.due_date t = Some due -> newDate tz legacy due = Some d ->
          (getHours tz d < 6)%Z ->
          dueHourIn tz legacy 6 12 t = false
          /\ dueHourIn tz legacy 12 18 t = false
          /\ dueHourIn tz legacy 18 24 t = false).
Proof.
  intros ts st. subst st. unfold statistics.
  cbn [morningCount afternoonCount eveningCount todosWithDueDate].
  assert (T : forall lo hi t, dueHourIn tz legacy lo hi t = true ->
                              truthy (Todo.due_date t) = true).
  { intros lo hi t H. unfold dueHourIn in H.
    destruct (Todo.due_date t) as [[| c s] |]; [discriminate | reflexivity
                                                | discriminate]. }
  assert (D : forall a b c d t, (b <= c)%Z ->
                dueHourIn tz legacy a b t = true ->
                dueHourIn tz legacy c d t = false).
  { intros a b c d t Hbc H. unfold dueHourIn in *.
    destruct (Todo.due_date t) as [[| x s] |]; try discriminate H.
    destruct (newDate tz legacy (x :: s)); [| discriminate H].
    apply andb_prop in H. destruct H as [_ H]. apply Z.ltb_lt in H.
    apply andb_false_iff. left. apply Z.leb_gt. lia. }
  split.
  - apply count_disjoint3; eauto.
    + intros t H. split; eapply D; try exact H; lia.
    + intros t H. eapply D; try exact H; lia.
  - intros t due d Hdue Hparse Hh. unfold dueHourIn. rewrite Hdue.
    destruct due as [| x s]; [auto|]. rewrite Hparse.
    repeat split; apply andb_false_iff; left; apply Z.leb_gt; lia.
Qed.

End AnalyzeStatistics.

(** ** Statistics of the TodoSummary component *)

Section SummaryStats.

Import TodoSummary.
Local Open Scope nat_scope.

Variable tz : Z.
Variable legacy : jsstring -> JsDate.
Variable now : Z.

Lemma date_le_midnight :
  forall a b,
    date_le (setHours tz 0 0 0 0 a) (setHours tz 0 0 0 0 b) = true <->
    exists x y, a = Some x /\ b = Some y /\ (localDay tz x <= localDay tz y)%Z.
Proof.
  intros [x |] [y |]; simpl; split; intros H; try discriminate;
    try (destruct H as (? & ? & ? & ? & _); discriminate).
  - exists x, y. repeat split. apply Z.leb_le in H.
    unfold msPerDay, msPerHour, msPerMinute, msPerSecond in H. lia.
  - destruct H as (x' & y' & H1 & H2 & H3). inversion H1; inversion H2; subst.
    apply Z.leb_le.
    unfold msPerDay, msPerHour, msPerMinute, msPerSecond. lia.
Qed.

(** [getStats] splits the list it is given: completed and incomplete make
    the total; the three priority lists and the urgent list hold only
    incomplete todos of the list; the priority lists never hold more than
    the incomplete todos, and hold them all when every priority is one of
    high, medium and low. *)
Theorem getStats_partition :
  forall l,
    let st := getStats tz legacy now l in
    total st = List.length l
    /\ completed st + incomplete st = total st
    /\ (forall t, In t (highPriority st) \/ In t (mediumPriority st)
                  \/ In t (lowPriority st) \/ In t (urgent st) ->
                  In t l /\ Todo.completed t = false)
    /\ List.length (highPriority st) + List.length (mediumPriority st)
       + List.length (lowPriority st) <= incomplete st
    /\ ((forall t, In t l -> In (Todo.priority t) validPriorities) ->
        List.length (highPriority st) + List.length (mediumPriority st)
        + List.length (lowPriority st) = incomplete st).
Proof.
  intros l st. subst st. unfold getStats.
  cbn [total completed incomplete highPriority mediumPriority lowPriority
       urgent].
  set (inc := filter (fun t => negb (Todo.completed t)) l).
  assert (Hinc : forall t, In t inc -> In t l /\ Todo.completed t = false).
  { intros t H. apply filter_In in H. destruct H as [H1 H2].
    split; [exact H1|]. now destruct (Todo.completed t). }
  assert (X1 : forall t, hasPriority "high" t = true ->
                         hasPriority "medium" t = false
                         /\ hasPriority "low" t = false).
  { intros t H. unfold hasPriority in *.
    split; eapply literal_eqb_exclusive; try exact H; reflexivity. }
  assert (X2 : forall t, hasPriority "medium" t = true ->
                         hasPriority "low" t = false).
  { intros t H. unfold hasPriority in *.
    eapply literal_eqb_exclusive; try exact H; reflexivity. }
  split; [reflexivity|].
  split.
  { pose proof (count_complement Todo.completed l) as H.
    unfold count in H. exact H. }
  split.
  { intros t H. apply Hinc.
    destruct H as [H | [H | [H | H]]]; apply filter_In in H; tauto. }
  split.
  { change (count (hasPriority "high") inc + count (hasPriority "medium") inc
            + count (hasPriority "low") inc <= List.length inc).
    etransitivity; [| apply (count_le_length (fun _ => true))].
    apply count_disjoint3; auto. }
  intros Hvalid.
  change (count (hasPriority "high") inc + count (hasPriority "medium") inc
          + count (hasPriority "low") inc = List.length inc).
  apply count_partition3. intros t Ht.
  destruct (Hinc t Ht) as [Hl _]. specialize (Hvalid t Hl).
  unfold validPriorities in Hvalid. simpl in Hvalid. unfold hasPriority.
  destruct Hvalid as [H | [H | [H | []]]]; rewrite <- H; simpl; auto.
Qed.

(** A todo of the list is urgent exactly when it is incomplete and its
    due date parses to an instant whose local civil day is today's or an
    earlier one, whatever the time of day; a todo without due date, or
    with one that does not parse, is never urgent. *)
Theorem getStats_urgent :
  forall l t,
    In t (urgent (getStats tz legacy now l)) <->
    In t l /\ Todo.completed t = false
    /\ exists due d,
         Todo.due_date t = Some due
         /\ newDate tz legacy due = Some d
         /\ (localDay tz d <= localDay tz now)%Z.
Proof.
  intros l t. unfold getStats. cbn [urgent].
  rewrite !filter_In. unfold isUrgent.
  split.
  - intros [[Hin Hc] Hu]. split; [exact Hin|].
    split; [now destruct (Todo.completed t)|].
    destruct (Todo.due_date t) as [[| c s] |]; try discriminate Hu.
    apply date_le_midnight in Hu.
    destruct Hu as (x & y & Hx & Hy & Hle). inversion Hy; subst.
    exists (c :: s), x. auto.
  - intros (Hin & Hc & due & d & Hdue & Hparse & Hle).
    split; [split; [exact Hin | now rewrite Hc]|].
    rewrite Hdue. destruct due as [| c s]; [discriminate Hparse|].
    apply date_le_midnight. exists d, now. auto.
Qed.

Lemma ratesExactRow_spec :
  forall t c c', c' <= c -> ratesExactRow c t = true ->
    roundedPercent c' t = completionRateSpec c' t.
Proof.
  intros t. induction c as [| c IH]; intros c' Hle H.
  - assert (c' = 0) by lia. subst c'.
    change ((roundedPercent 0 t =? completionRateSpec 0 t)%Z && true = true)
      in H.
    apply andb_prop in H. destruct H as [H _]. now apply Z.eqb_eq.
  - change ((roundedPercent (S c) t =? completionRateSpec (S c) t)%Z
            && ratesExactRow c t = true) in H.
    apply andb_prop in H. destruct H as [H1 H2].
    destruct (Nat.eq_dec c' (S c)) as [-> | Hne];
      [now apply Z.eqb_eq | apply IH; [lia | exact H2]].
Qed.

Lemma ratesExactUpTo_spec :
  forall n t c, t <= n -> 0 < t -> c <= t -> ratesExactUpTo n = true ->
    roundedPercent c t = completionRateSpec c t.
Proof.
  induction n as [| n IH]; intros t c Hle Hpos Hc H; [lia|].
  change (ratesExactRow (S n) (S n) && ratesExactUpTo n = true) in H.
  apply andb_prop in H. destruct H as [H1 H2].
  destruct (Nat.eq_dec t (S n)) as [-> | Hne].
  - eapply ratesExactRow_spec; [exact Hc | exact H1].
  - apply (IH t c); [lia | exact Hpos | exact Hc | exact H2].
Qed.

Lemma ratesExact_39 : ratesExactUpTo 39 = true.
Proof. vm_compute. reflexivity. Qed.

Lemma completionRateSpec_bounds :
  forall c t, c <= t -> (0 <= completionRateSpec c t <= 100)%Z.
Proof.
  intros c t H. unfold completionRateSpec.
  destruct (Nat.ltb_spec 0 t); [| lia].
  split.
  - apply Z.div_pos; lia.
  - apply Z.lt_succ_r. apply Z.div_lt_upper_bound; lia.
Qed.

(** For a list of fewer than 40 todos the completion rate is the exact
    percentage rounded to the nearest integer, a half going up, and so
    lies between 0 and 100. *)
Theorem getStats_completionRate_small :
  forall l,
    List.length l < 40 ->
    completionRate (getStats tz legacy now l)
    = completionRateSpec (count Todo.completed l) (List.length l)
    /\ (0 <= completionRate (getStats tz legacy now l) <= 100)%Z.
Proof.
  intros l Hlen.
  pose proof (count_le_length Todo.completed l) as Hc.
  assert (E : completionRate (getStats tz legacy now l)
              = completionRateSpec (count Todo.completed l) (List.length l)).
  { unfold getStats. cbn [completionRate].
    destruct (Nat.ltb_spec 0 (List.length l)) as [Hpos | Hz].
    - eapply ratesExactUpTo_spec; [| exact Hpos | exact Hc | exact ratesExact_39].
      lia.
    - unfold completionRateSpec.
      destruct (Nat.ltb_spec 0 (List.length l)); [lia | reflexivity]. }
  split; [exact E|]. rewrite E. now apply completionRateSpec_bounds.
Qed.

End SummaryStats.

Lemma getStats_completionRate_small_witness :
  TodoSummary.completionRate
    (TodoSummary.getStats kst noLegacyParse sampleNow fourTodos) = 75.
Proof.
  destruct (getStats_completionRate_small kst noLegacyParse sampleNow
              fourTodos) as [H _].
  - vm_compute. lia.
  - rewrite H. reflexivity.
Defined.

(** ** The dates given to the model *)

Lemma getUTCDay_shift :
  forall t k, getUTCDay (t + k * msPerDay) = (getUTCDay t + k) mod 7.
Proof.
  intros t k. unfold getUTCDay.
  rewrite Z.div_add by (unfold msPerDay; lia).
  replace (t / msPerDay + k + 4) with (t / msPerDay + 4 + k) by ring.
  rewrite Zplus_mod_idemp_l. reflexivity.
Qed.

Lemma getUTCDay_range : forall t, 0 <= getUTCDay t <= 6.
Proof.
  intros t. unfold getUTCDay.
  pose proof (Z.mod_pos_bound (t / msPerDay + 4) 7 ltac:(lia)). lia.
Qed.

(** The prompt names the weekday of the current day in UTC+9 by an index
    from 0 to 6, tomorrow and the day after as the next two days, 'this
    Friday' as the first Friday strictly after today and 'next Monday'
    as the first Monday strictly after today: on a Friday, respectively
    on a Monday, the date given is a week away, never today. *)
Theorem buildPrompt_dates :
  forall p now,
    let q := GenerateTodo.buildPrompt p now in
    let today := kstTime now in
    GenerateTodo.currentDate q = isoDate today
    /\ GenerateTodo.dayOfWeek q = getUTCDay today
    /\ 0 <= GenerateTodo.dayOfWeek q <= 6
    /\ GenerateTodo.tomorrowDate q = isoDate (today + 1 * msPerDay)
    /\ GenerateTodo.dayAfterTomorrowDate q = isoDate (today + 2 * msPerDay)
    /\ (exists f,
           1 <= f <= 7
           /\ GenerateTodo.thisFridayDate q = isoDate (today + f * msPerDay)
           /\ getUTCDay (today + f * msPerDay) = 5
           /\ forall j, 1 <= j < f -> getUTCDay (today + j * msPerDay) <> 5)
    /\ (exists m,
           1 <= m <= 7
           /\ GenerateTodo.nextMondayDate q = isoDate (today + m * msPerDay)
           /\ getUTCDay (today + m * msPerDay) = 1
           /\ forall j, 1 <= j < m -> getUTCDay (today + j * msPerDay) <> 1).
Proof.
  intros p now q today. subst q. unfold GenerateTodo.buildPrompt.
  fold today.
  cbn [GenerateTodo.currentDate GenerateTodo.dayOfWeek
       GenerateTodo.tomorrowDate GenerateTodo.dayAfterTomorrowDate
       GenerateTodo.thisFridayDate GenerateTodo.nextMondayDate].
  pose proof (getUTCDay_range today) as Hw.
  split; [reflexivity|]. split; [reflexivity|]. split; [exact Hw|].
  split; [reflexivity|]. split; [reflexivity|].
  remember (getUTCDay today) as w eqn:Ew.
  split.
  - exists (if (5 - w + 7) mod 7 =? 0 then 7 else (5 - w + 7) mod 7).
    split; [| split; [reflexivity|]].
    + destruct (Z.eqb_spec ((5 - w + 7) mod 7) 0);
        Z.div_mod_to_equations; lia.
    + split.
      * rewrite getUTCDay_shift, <- Ew.
        destruct (Z.eqb_spec ((5 - w + 7) mod 7) 0);
          Z.div_mod_to_equations; lia.
      * intros j Hj. rewrite getUTCDay_shift, <- Ew.
        destruct (Z.eqb_spec ((5 - w + 7) mod 7) 0);
          Z.div_mod_to_equations; lia.
  - exists (if (8 - w) mod 7 =? 0 then 7 else (8 - w) mod 7).
    split; [| split; [reflexivity|]].
    + destruct (Z.eqb_spec ((8 - w) mod 7) 0);
        Z.div_mod_to_equations; lia.
    + split.
      * rewrite getUTCDay_shift, <- Ew.
        destruct (Z.eqb_spec ((8 - w) mod 7) 0);
          Z.div_mod_to_equations; lia.
      * intros j Hj. rewrite getUTCDay_shift, <- Ew.
        destruct (Z.eqb_spec ((8 - w) mod 7) 0);
          Z.div_mod_to_equations; lia.
Qed.

(** ** The 'today' list of the TodoSummary component *)

Lemma isoDate_same_day :
  forall a b, a / msPerDay = b / msPerDay -> isoDate a = isoDate b.
Proof.
  intros a b H. unfold isoDate. now rewrite H.
Qed.

(** A todo is in the 'today' list exactly when the part before [T] of its
    creation date or of its due date is the UTC date of local midnight.
    In a zone at or west of Greenwich that is the date of the local day;
    in a zone east of it, such as UTC+9, it is the date of the day
    before. *)
Theorem getTodayTodos_date :
  forall tz now todos t,
    - msPerDay < tz <= msPerDay ->
    let day := if 0 <? tz then localDay tz now - 1 else localDay tz now in
    In t (TodoSummary.getTodayTodos tz now todos) <->
    In t todos
    /\ (TodoSummary.datePartIs (isoDate (day * msPerDay))
                               (Todo.created_date t) = true
        \/ TodoSummary.datePartIs (isoDate (day * msPerDay))
                                  (Todo.due_date t) = true).
Proof.
  intros tz now todos t Htz day.
  unfold TodoSummary.getTodayTodos. rewrite filter_In, orb_true_iff.
  cbn [setHours].
  assert (E : isoDate (localDay tz now * msPerDay + 0 * msPerHour
                       + 0 * msPerMinute + 0 * msPerSecond + 0 - tz)
              = isoDate (day * msPerDay)).
  { apply isoDate_same_day.
    rewrite (Z.div_mul day msPerDay) by (unfold msPerDay; lia).
    subst day. unfold msPerHour, msPerMinute, msPerSecond.
    destruct (Z.ltb_spec 0 tz).
    - replace (localDay tz now * msPerDay + 0 * 3600000 + 0 * 60000
               + 0 * 1000 + 0 - tz)
        with (msPerDay - tz + (localDay tz now - 1) * msPerDay) by ring.
      rewrite Z.div_add by (unfold msPerDay; lia).
      rewrite Z.div_small by lia. ring.
    - replace (localDay tz now * msPerDay + 0 * 3600000 + 0 * 60000
               + 0 * 1000 + 0 - tz)
        with (- tz + localDay tz now * msPerDay) by ring.
      rewrite Z.div_add by (unfold msPerDay; lia).
      rewrite Z.div_small by lia. ring. }
  rewrite E. reflexivity.
Qed.

(** ** Dates rendered and parsed back *)

Section DateRoundTrip.

Lemma daysRoundTrip_spec :
  forall n z k, 0 <= k < Z.of_nat n -> daysRoundTrip n z = true ->
    dayRoundTrips (z + k) = true.
Proof.
  induction n as [| n IH]; intros z k Hk H; [lia|].
  cbn [daysRoundTrip] in H.
  destruct (dayRoundTrips z) eqn:E; [| discriminate H].
  destruct (Z.eq_dec k 0) as [-> | Hne].
  - now rewrite Z.add_0_r.
  - replace (z + k) with (z + 1 + (k - 1)) by ring.
    apply IH; [lia | exact H].
Qed.

Lemma cycle_round_trips :
  daysRoundTrip (Z.to_nat cycleDays) cycleStart = true.
Proof. vm_compute. reflexivity. Qed.

Lemma civilFromDays_cycle :
  forall z k,
    civilFromDays (z + k * cycleDays)
    = let '(y, m, d) := civilFromDays z in (y + 400 * k, m, d).
Proof.
  intros z k. unfold civilFromDays, cycleDays. cbv zeta.
  replace (z + k * 146097 + 719468) with (z + 719468 + k * 146097) by ring.
  rewrite Z.div_add by lia.
  set (era := (z + 719468) / 146097).
  replace (z + 719468 + k * 146097 - (era + k) * 146097)
    with (z + 719468 - era * 146097) by ring.
  set (doe := z + 719468 - era * 146097).
  set (yoe := (doe - doe / 1460 + doe / 36524 - doe / 146096) / 365).
  set (doy := doe - (365 * yoe + yoe / 4 - yoe / 100)).
  set (mp := (5 * doy + 2) / 153).
  destruct ((if mp <? 10 then mp + 3 else mp - 9) <=? 2);
    f_equal; f_equal; ring.
Qed.

Lemma daysFromCivil_cycle :
  forall y m d k,
    daysFromCivil (y + 400 * k) m d = daysFromCivil y m d + k * cycleDays.
Proof.
  intros y m d k. unfold daysFromCivil, cycleDays. cbv zeta.
  set (y' := if m <=? 2 then y - 1 else y).
  replace (if m <=? 2 then y + 400 * k - 1 else y + 400 * k)
    with (y' + k * 400) by (subst y'; destruct (m <=? 2); ring).
  rewrite Z.div_add by lia.
  replace (y' + k * 400 - (y' / 400 + k) * 400) with (y' - y' / 400 * 400)
    by ring.
  ring.
Qed.

Lemma isLeapYear_cycle : forall y k, isLeapYear (y + 400 * k) = isLeapYear y.
Proof.
  intros y k. unfold isLeapYear.
  replace (y + 400 * k) with (y + (100 * k) * 4) at 1 by ring.
  replace (y + 400 * k) with (y + (4 * k) * 100) at 1 by ring.
  replace (y + 400 * k) with (y + k * 400) by ring.
  rewrite !Z.mod_add by lia. reflexivity.
Qed.

Lemma daysInMonth_cycle :
  forall y m k, daysInMonth (y + 400 * k) m = daysInMonth y m.
Proof.
  intros y m k. unfold daysInMonth. now rewrite isLeapYear_cycle.
Qed.

(** Every day number is the day number of its own civil date, which is a
    date of the calendar. *)
Lemma civil_round_trip :
  forall z,
    let '(y, m, d) := civilFromDays z in
    daysFromCivil y m d = z
    /\ 1 <= m <= 12 /\ 1 <= d <= daysInMonth y m
    /\ (-719528 <= z <= 2932896 -> 0 <= y <= 9999).
Proof.
  intros z.
  set (k := (z - cycleStart) / cycleDays).
  set (r := (z - cycleStart) mod cycleDays).
  assert (Hz : z = cycleStart + r + k * cycleDays).
  { subst k r.
    pose proof (Z.div_mod (z - cycleStart) cycleDays ltac:(discriminate)).
    lia. }
  assert (Hr : 0 <= r < cycleDays)
    by (apply Z.mod_pos_bound; reflexivity).
  pose proof (daysRoundTrip_spec (Z.to_nat cycleDays) cycleStart
                ltac:(rewrite Z2Nat.id; [exact Hr | discriminate])
                cycle_round_trips) as T.
  rewrite Hz, civilFromDays_cycle.
  unfold dayRoundTrips in T.
  destruct (civilFromDays (cycleStart + r)) as [[y m] d].
  repeat rewrite andb_true_iff in T.
  destruct T as [[[[[[[T1 T2] T3] T4] T5] T6] T7] T8].
  apply Z.eqb_eq in T1.
  apply Z.leb_le in T2, T3, T4, T5, T6, T7.
  rewrite daysFromCivil_cycle, daysInMonth_cycle, T1.
  split; [reflexivity|]. split; [lia|]. split; [lia|].
  intros Hrange. unfold cycleStart, cycleDays in *.
  destruct (Z.ltb_spec (-719468 + r) (-719468 + 146037)).
  - apply Z.leb_le in T8. lia.
  - apply Z.eqb_eq in T8. lia.
Qed.

Lemma digit_digitChar : forall v, digit (digitChar v) = Some (v mod 10).
Proof.
  intros v. unfold digit, digitChar, in_range.
  pose proof (Z.mod_pos_bound v 10 ltac:(lia)) as B.
  destruct (N.leb_spec 48 (Z.to_N (48 + v mod 10))); [| lia].
  destruct (N.leb_spec (Z.to_N (48 + v mod 10)) 57); [| lia].
  cbn [andb]. f_equal. lia.
Qed.

Lemma digits_step :
  forall n acc s,
    digits (S n) acc s
    = match digits n acc s with
      | Some (a, c :: r) =>
          match digit c with
          | Some x => Some (10 * a + x, r)
          | None => None
          end
      | _ => None
      end.
Proof.
  induction n as [| n IH]; intros acc s.
  - simpl. destruct s as [| c s']; [reflexivity|].
    destruct (digit c); reflexivity.
  - destruct s as [| c s']; [reflexivity|].
    cbn [digits]. destruct (digit c) as [v |]; [| reflexivity].
    rewrite <- IH. reflexivity.
Qed.

Lemma digits_padded :
  forall n v acc rest,
    0 <= v < 10 ^ Z.of_nat n ->
    digits n acc (padded n v ++ rest) = Some (acc * 10 ^ Z.of_nat n + v, rest).
Proof.
  induction n as [| n IH]; intros v acc rest Hv.
  - simpl in *. f_equal. f_equal. lia.
  - rewrite digits_step. cbn [padded]. rewrite <- app_assoc. cbn [app].
    assert (Hp : 10 ^ Z.of_nat (S n) = 10 * 10 ^ Z.of_nat n).
    { rewrite Nat2Z.inj_succ, Z.pow_succ_r by lia. reflexivity. }
    assert (Hq : 0 <= v / 10 < 10 ^ Z.of_nat n).
    { split; [apply Z.div_pos; lia|].
      apply Z.div_lt_upper_bound; lia. }
    rewrite (@IH (v / 10) acc _ Hq), digit_digitChar.
    f_equal. f_equal. rewrite Hp.
    pose proof (Z.div_mod v 10 ltac:(lia)). lia.
Qed.

Lemma daysInMonth_le_31 : forall y m, daysInMonth y m <= 31.
Proof.
  intros y m. unfold daysInMonth.
  destruct (m =? 2); [destruct (isLeapYear y); lia|].
  destruct ((m =? 4) || (m =? 6) || (m =? 9) || (m =? 11)); lia.
Qed.

Lemma parseIso_isoDate :
  forall tz t,
    fourDigitYear t -> parseIso tz (isoDate t) = Some (t / msPerDay * msPerDay).
Proof.
  intros tz t Ht. unfold fourDigitYear in Ht.
  assert (Hz : -719528 <= t / msPerDay <= 2932896).
  { unfold msPerDay. split.
    - apply Z.div_le_lower_bound; lia.
    - apply Z.lt_succ_r. apply Z.div_lt_upper_bound; lia. }
  pose proof (civil_round_trip (t / msPerDay)) as R.
  unfold isoDate, parseIso, parseDatePart.
  destruct (civilFromDays (t / msPerDay)) as [[y m] d].
  destruct R as (Hdays & Hm & Hd & Hy). specialize (Hy Hz).
  pose proof (daysInMonth_le_31 y m) as H31.
  destruct (Z.leb_spec 0 y); [| lia]. destruct (Z.leb_spec y 9999); [| lia].
  cbn [andb].
  rewrite (@digits_padded 4 y 0) by (simpl; lia).
  cbn [app expect]. unfold char_eqb. rewrite N.eqb_refl.
  rewrite (@digits_padded 2 m 0) by (simpl; lia).
  cbn [app expect]. unfold char_eqb. rewrite N.eqb_refl.
  rewrite <- (app_nil_r (padded 2 d)).
  rewrite (@digits_padded 2 d 0) by (simpl; lia).
  simpl Z.of_nat.
  replace (0 * 10 ^ 4 + y) with y by ring.
  replace (0 * 10 ^ 2 + m) with m by ring.
  replace (0 * 10 ^ 2 + d) with d by ring.
  destruct (Z.leb_spec 1 m); [| lia]. destruct (Z.leb_spec m 12); [| lia].
  destruct (Z.leb_spec 1 d); [| lia].
  destruct (Z.leb_spec d (daysInMonth y m)); [| lia].
  cbn [andb]. now rewrite Hdays.
Qed.

Lemma isoDate_not_empty : forall t, isoDate t <> [].
Proof.
  intros t. unfold isoDate.
  destruct (civilFromDays (t / msPerDay)) as [[y m] d].
  intros H. apply (f_equal (@List.length _)) in H.
  rewrite !length_app in H. simpl in H. lia.
Qed.



(** A date rendered as [YYYY-MM-DD], as the handlers render the current
    day, parses back to midnight UTC of that day, in every time zone and
    whatever the engine's fallback parser does. *)
Theorem newDate_isoDate :
  forall tz legacy t,
    fourDigitYear t ->
    newDate tz legacy (isoDate t) = Some (t / msPerDay * msPerDay).
Proof.
  intros tz legacy t Ht. unfold newDate.
  pose proof (isoDate_not_empty t) as Hne.
  destruct (isoDate t) as [| c s] eqn:E; [now elim Hne|].
  rewrite <- E. now rewrite parseIso_isoDate.
Qed.

End DateRoundTrip.

Lemma newDate_isoDate_witness :
  newDate kst noLegacyParse (isoDate (kstTime sampleNow))
  = Some (kstTime sampleNow / msPerDay * msPerDay).
Proof.
  apply newDate_isoDate.
  unfold fourDigitYear, kstTime, kstOffset, sampleNow. lia.
Defined.

(** ** What the round trip gives the handlers *)

Section CurrentDate.

Variable tz : Z.
Variable legacy : jsstring -> JsDate.

Lemma isoDate_injective :
  forall a b,
    fourDigitYear a -> fourDigitYear b ->
    isoDate a = isoDate b -> a / msPerDay = b / msPerDay.
Proof.
  intros a b Ha Hb H.
  pose proof (@parseIso_isoDate 0 a Ha) as Pa.
  pose proof (@parseIso_isoDate 0 b Hb) as Pb.
  rewrite H in Pa. rewrite Pa in Pb. inversion Pb as [E].
  unfold msPerDay in *. lia.
Qed.





(** In a zone east of Greenwich a todo without due date whose stored
    creation date begins with the UTC date of the current instant, as a
    todo created just now does, is in the 'today' list only while the
    local time of day is below the zone offset: in UTC+9, before 09:00. *)
Theorem getTodayTodos_created_now :
  forall now todos t created,
    0 < tz < msPerDay ->
    fourDigitYear (now - msPerDay) -> fourDigitYear now ->
    In t todos ->
    Todo.created_date t = Some created ->
    beforeFirst (ch "T") created = isoDate now ->
    Todo.due_date t = None ->
    (In t (TodoSummary.getTodayTodos tz now todos) <->
     (now + tz) mod msPerDay < tz).
Proof.
  intros now todos t created Htz Hlo Hhi Hin Hc Hprefix Hnodue.
  unfold TodoSummary.getTodayTodos. rewrite filter_In. cbn [setHours].
  rewrite Hc, Hnodue. unfold TodoSummary.datePartIs. rewrite Hprefix.
  rewrite orb_false_r, jsstring_eqb_eq.
  set (mid := localDay tz now * msPerDay + 0 * msPerHour + 0 * msPerMinute
              + 0 * msPerSecond + 0 - tz).
  pose proof (Z.div_mod (now + tz) msPerDay ltac:(discriminate)) as Hdm.
  pose proof (Z.mod_pos_bound (now + tz) msPerDay ltac:(reflexivity)) as Hr.
  assert (Hmid : mid = localDay tz now * msPerDay - tz)
    by (subst mid; unfold msPerHour, msPerMinute, msPerSecond; ring).
  assert (Hrange : fourDigitYear mid).
  { unfold fourDigitYear, localDay in *. rewrite Hmid.
    unfold msPerDay in *. lia. }
  assert (Hday : mid / msPerDay = localDay tz now - 1).
  { rewrite Hmid.
    replace (localDay tz now * msPerDay - tz)
      with (msPerDay - tz + (localDay tz now - 1) * msPerDay) by ring.
    rewrite Z.div_add by discriminate.
    rewrite Z.div_small by lia. ring. }
  split.
  - intros [_ H]. apply (@isoDate_injective now mid Hhi Hrange) in H.
    rewrite Hday in H. unfold localDay in *.
    pose proof (Z.div_mod now msPerDay ltac:(discriminate)) as Hn.
    pose proof (Z.mod_pos_bound now msPerDay ltac:(reflexivity)) as Hs.
    unfold msPerDay in *. lia.
  - intros H. split; [exact Hin|]. apply isoDate_same_day. rewrite Hday.
    unfold localDay in *. symmetry.
    apply (Z.div_unique now msPerDay ((now + tz) / msPerDay - 1)
                        ((now + tz) mod msPerDay + msPerDay - tz)).
    + left. unfold msPerDay in *. lia.
    + unfold msPerDay in *. lia.
Qed.

End CurrentDate.



Lemma getTodayTodos_created_now_witness :
  In createdJustNow
     (TodoSummary.getTodayTodos kst sampleNow [createdJustNow]).
Proof.
  assert (Hz : 0 < kst < msPerDay) by (unfold kst, msPerHour, msPerDay; lia).
  assert (Rl : fourDigitYear (sampleNow - msPerDay))
    by (unfold fourDigitYear, sampleNow, msPerDay; lia).
  assert (Rh : fourDigitYear sampleNow)
    by (unfold fourDigitYear, sampleNow; lia).
  assert (P : beforeFirst (ch "T") (lit "2026-01-03T16:00:00+00:00")
              = isoDate sampleNow) by (vm_compute; reflexivity).
  assert (E : (sampleNow + kst) mod msPerDay < kst)
    by (vm_compute; reflexivity).
  exact (proj2 (@getTodayTodos_created_now kst sampleNow [createdJustNow]
                  createdJustNow (lit "2026-01-03T16:00:00+00:00")
                  Hz Rl Rh (or_introl eq_refl) eq_refl P eq_refl) E).
Defined.

Lemma getTodayTodos_date_witness :
  In createdJustNow
     (TodoSummary.getTodayTodos kst sampleNow [createdJustNow]).
Proof.
  assert (Hz : - msPerDay < kst <= msPerDay)
    by (unfold kst, msPerHour, msPerDay; lia).
  apply (proj2 (@getTodayTodos_date kst sampleNow [createdJustNow]
                  createdJustNow Hz)).
  split; [left; reflexivity|]. left. vm_compute. reflexivity.
Defined.

(** ** The repair pass as a whole *)






(** ** The D-day label of a card *)

Section CardLabels.

Import TodoCard.

Variable tz : Z.
Variable legacy : jsstring -> JsDate.
Variable now : Z.

Lemma ceilDiv_days : forall k, ceilDiv (k * msPerDay) (1000 * 60 * 60 * 24) = k.
Proof.
  intros k. unfold ceilDiv, msPerDay.
  replace (- (k * 86400000)) with ((- k) * 86400000) by ring.
  change (1000 * 60 * 60 * 24) with 86400000.
  rewrite Z.div_mul by lia. ring.
Qed.

Lemma calculateDday_parsed :
  forall c s d,
    newDate tz legacy (c :: s) = Some d ->
    calculateDday tz legacy now (Some (c :: s))
    = let k := localDay tz d - localDay tz now in
      Some (if k =? 0 then todayLabel
            else if k =? 1 then tomorrowLabel
            else if k <? 0 then lit "D+" ++ decimal (Z.abs k)
            else lit "D-" ++ decimal k).
Proof.
  intros c s d Hd. unfold calculateDday. rewrite Hd. cbn [setHours].
  replace (localDay tz d * msPerDay + 0 * msPerHour + 0 * msPerMinute
           + 0 * msPerSecond + 0 - tz
           - (localDay tz now * msPerDay + 0 * msPerHour + 0 * msPerMinute
              + 0 * msPerSecond + 0 - tz))
    with ((localDay tz d - localDay tz now) * msPerDay) by ring.
  rewrite ceilDiv_days. cbv zeta.
  destruct (localDay tz d - localDay tz now =? 0); [reflexivity|].
  destruct (localDay tz d - localDay tz now =? 1); [reflexivity|].
  destruct (localDay tz d - localDay tz now <? 0); reflexivity.
Qed.

(** In a zone whose offset from UTC is the constant [tz], as UTC+9 is,
    the label of a card counts local civil days, whatever the times of
    day: '오늘' when the due date falls on today's local day, '내일' on
    the next, 'D+n' when it fell n days ago and 'D-n' when it falls in n
    days; a due date that does not parse gives 'D-NaN', and a missing or
    empty one no label. A zone with daylight saving, where two local
    midnights can be 23 or 25 hours apart, is not covered. *)
Theorem calculateDday_label :
  (forall s d,
      newDate tz legacy s = Some d ->
      let k := localDay tz d - localDay tz now in
      calculateDday tz legacy now (Some s)
      = Some (if k =? 0 then todayLabel
              else if k =? 1 then tomorrowLabel
              else if k <? 0 then lit "D+" ++ decimal (- k)
              else lit "D-" ++ decimal k))
  /\ (forall s, s <> [] -> newDate tz legacy s = None ->
                calculateDday tz legacy now (Some s) = Some (lit "D-NaN"))
  /\ calculateDday tz legacy now None = None
  /\ calculateDday tz legacy now (Some []) = None.
Proof.
  repeat split.
  - intros s d Hd k. destruct s as [| c s]; [discriminate Hd|].
    refine (eq_trans (calculateDday_parsed c s Hd) _). cbv zeta. fold k.
    destruct (Z.eqb_spec k 0); [reflexivity|].
    destruct (Z.eqb_spec k 1); [reflexivity|].
    destruct (Z.ltb_spec k 0); [| reflexivity].
    now rewrite Z.abs_neq by lia.
  - intros s Hne Hd. destruct s as [| c s]; [now elim Hne|].
    unfold calculateDday. rewrite Hd. reflexivity.
Qed.

Lemma card_overdue_iff :
  forall t,
    isOverdue tz legacy now t = true <->
    Todo.completed t = false
    /\ exists due d,
         Todo.due_date t = Some due
         /\ newDate tz legacy due = Some d
         /\ localDay tz d < localDay tz now.
Proof.
  intros t. unfold isOverdue.
  destruct (Todo.due_date t) as [[| c s] |] eqn:Hdue.
  - simpl. split; [discriminate|].
    intros (_ & due & d & Hd & Hp & _). inversion Hd; subst. discriminate Hp.
  - destruct (newDate tz legacy (c :: s)) as [d |] eqn:Hp.
    + pose proof (calculateDday_parsed c s Hp) as L. cbv zeta in L.
      unfold jsstring in *. rewrite L. clear L.
      destruct (Z.eqb_spec (localDay tz d - localDay tz now) 0) as [E0 | E0].
      { split; [discriminate|].
        intros (_ & due & d' & Hd & Hp' & Hlt). inversion Hd; subst.
        rewrite Hp in Hp'. inversion Hp'; subst. lia. }
      destruct (Z.eqb_spec (localDay tz d - localDay tz now) 1) as [E1 | E1].
      { split; [discriminate|].
        intros (_ & due & d' & Hd & Hp' & Hlt). inversion Hd; subst.
        rewrite Hp in Hp'. inversion Hp'; subst. lia. }
      destruct (Z.ltb_spec (localDay tz d - localDay tz now) 0) as [E2 | E2].
      * change (startsWith (lit "D+") (lit "D+" ++ _)) with true.
        cbn [andb]. split.
        -- intros H. split; [now destruct (Todo.completed t)|].
           exists (c :: s), d. repeat split; auto. lia.
        -- intros (Hc & _). now rewrite Hc.
      * change (startsWith (lit "D+") (lit "D-" ++ _)) with false.
        split; [discriminate|].
        intros (_ & due & d' & Hd & Hp' & Hlt). inversion Hd; subst.
        rewrite Hp in Hp'. inversion Hp'; subst. lia.
    + unfold calculateDday. rewrite Hp. simpl. split; [discriminate|].
      intros (_ & due & d' & Hd & Hp' & _). inversion Hd; subst.
      rewrite Hp in Hp'. discriminate Hp'.
  - simpl. split; [discriminate|].
    intros (_ & due & d & Hd & _). discriminate Hd.
Qed.

(** In a zone whose offset from UTC is the constant [tz], as UTC+9 is,
    a card is marked overdue exactly when its todo is incomplete and its
    due date parses to an instant whose local civil day is before
    today's; a todo due today is never marked, whatever its time of day,
    nor one whose due date does not parse. A zone with daylight saving
    is not covered. *)
Theorem card_overdue :
  forall t,
    isOverdue tz legacy now t = true <->
    Todo.completed t = false
    /\ exists due d,
         Todo.due_date t = Some due
         /\ newDate tz legacy due = Some d
         /\ localDay tz d < localDay tz now.
Proof. exact card_overdue_iff. Qed.

(** Every todo of a list whose card is marked overdue is in the urgent
    list of the summary of that list. *)
Theorem card_overdue_is_urgent :
  forall l t,
    In t l -> isOverdue tz legacy now t = true ->
    In t (TodoSummary.urgent (TodoSummary.getStats tz legacy now l)).
Proof.
  intros l t Hin H. apply card_overdue_iff in H.
  destruct H as (Hc & due & d & Hdue & Hp & Hlt).
  unfold TodoSummary.getStats. cbn [TodoSummary.urgent].
  rewrite !filter_In. split; [split; [exact Hin | now rewrite Hc]|].
  unfold TodoSummary.isUrgent. rewrite Hdue.
  destruct due as [| c s]; [discriminate Hp|].
  apply date_le_midnight. exists d, now. repeat split; auto. lia.
Qed.

End CardLabels.


Lemma card_overdue_is_urgent_witness :
  In dueTwoDaysAgo
     (TodoSummary.urgent
        (TodoSummary.getStats kst noLegacyParse sampleNow [dueTwoDaysAgo])).
Proof.
  apply (@card_overdue_is_urgent kst noLegacyParse sampleNow [dueTwoDaysAgo]
           dueTwoDaysAgo (or_introl eq_refl)).
  vm_compute. reflexivity.
Defined.


(** ** What a successful generate-todo response carries *)

Lemma postprocessTodo_fields :
  forall tz legacy raw today,
    exists t p c,
      title (postprocessTodo tz legacy raw today) = Some t
      /\ (2 <= strlen t <= 100)%nat
      /\ priority (postprocessTodo tz legacy raw today) = Some p
      /\ In p validPriorities
      /\ category (postprocessTodo tz legacy raw today) = Some c
      /\ c <> [].
Proof.
  intros tz legacy [ti de dd dt pr ca] today. unfold postprocessTodo.
  cbn [title priority category].
  eexists. eexists. eexists.
  split; [reflexivity|]. split.
  { destruct ti as [[| c t0] |]; try (simpl; lia).
    pose proof (title_bounds (c :: t0)) as B. cbv zeta in B. exact B. }
  split; [reflexivity|]. split.
  { assert (M : In (lit "medium") validPriorities)
      by (right; left; reflexivity).
    destruct pr as [[| c p0] |]; auto.
    destruct (arrayIncludes validPriorities (c :: p0)) eqn:E; auto.
    now apply arrayIncludes_In. }
  split; [reflexivity|].
  destruct ca as [[| c cs] |]; discriminate.
Qed.

(** Whatever the model returned, a response of the generate-todo handler
    that is a success carries a todo with a title of 2 to 100 code units,
    a priority among low, medium and high and at least one category, and
    was obtained with exactly one call to the gateway. *)
Theorem generate_success_is_repaired :
  forall (env : Env GenerateTodo.Prompt GeneratedTodo) request r calls,
    Handler.run (GenerateTodo.POST env request) = (inr r, calls) ->
    GenerateTodo.success r = true ->
    calls = 1%nat
    /\ GenerateTodo.status r = 200
    /\ exists d t p c,
         GenerateTodo.data r = Some d
         /\ title d = Some t /\ (2 <= strlen t <= 100)%nat
         /\ priority d = Some p /\ In p validPriorities
         /\ category d = Some c /\ c <> [].
Proof.
  intros env [[e | text]] r calls Hrun Hs.
  - rewrite (generate_body_run env e) in Hrun. inversion Hrun; subst.
    destruct (onError_envelope e) as (_ & Hf & _).
    congruence.
  - destruct (valid (validateInput text)) eqn:Hv.
    + destruct (validateInput_valid_is_string text Hv) as [p ->].
      destruct (truthy (apiKey env)) eqn:Hk.
      * rewrite (@POST_valid_configured env p Hv Hk) in Hrun.
        destruct (generateObject env _) as [e | raw].
        -- inversion Hrun; subst.
           destruct (onError_envelope e) as (_ & Hf & _).
           congruence.
        -- inversion Hrun; subst. split; [reflexivity|].
           split; [reflexivity|].
           destruct (postprocessTodo_fields (zone env) (legacyParse env) raw
                       (currentDateOf (now env)))
             as (t & pr & c & H1 & H2 & H3 & H4 & H5 & H6).
           eexists. exists t, pr, c. split; [reflexivity|]. tauto.
      * assert (E : Handler.run
                      (GenerateTodo.POST env
                         {| GenerateTodo.body := inr (JString p) |})
                    = (inr (GenerateTodo.failure 500 GenerateTodo.NotConfigured),
                       0%nat)).
        { unfold Handler.run, GenerateTodo.POST, Handler.tryCatch,
            Handler.bind, Handler.await, Handler.ret.
          cbn [GenerateTodo.body]. rewrite Hv, Hk. reflexivity. }
        rewrite E in Hrun. inversion Hrun; subst. discriminate Hs.
    + destruct (validateInput_error_when_invalid text Hv) as [e He].
      assert (E : Handler.run
                    (GenerateTodo.POST env {| GenerateTodo.body := inr text |})
                  = (inr (GenerateTodo.failure 400 (GenerateTodo.Rejected e)),
                     0%nat)).
      { unfold Handler.run, GenerateTodo.POST, Handler.tryCatch,
          Handler.bind, Handler.await, Handler.ret.
        cbn [GenerateTodo.body]. rewrite Hv. cbn [negb]. rewrite He.
        reflexivity. }
      rewrite E in Hrun. inversion Hrun; subst. discriminate Hs.
Qed.

Lemma generate_success_is_repaired_witness :
  exists d,
    GenerateTodo.data
      (GenerateTodo.succeeded
         (postprocessTodo kst noLegacyParse pastDueDate
                          (currentDateOf sampleNow))) = Some d
    /\ exists t, title d = Some t /\ (2 <= strlen t <= 100)%nat.
Proof.
  destruct (@generate_success_is_repaired answeringEnv
              {| GenerateTodo.body := inr (JString (lit "buy milk")) |}
              (GenerateTodo.succeeded
                 (postprocessTodo kst noLegacyParse pastDueDate
                                  (currentDateOf sampleNow)))
              1%nat eq_refl eq_refl)
    as (_ & _ & d & t & p & c & Hd & Ht & Hlen & _).
  exists d. split; [exact Hd|]. exists t. auto.
Defined.

(** ** The week list and the current instant *)

(** A todo of the list whose creation date or due date parses to the
    current instant is always in the week list: the window holds the
    present. *)
Theorem getWeekTodos_holds_now :
  forall tz legacy now todos t s,
    In t todos ->
    Todo.created_date t = Some s \/ Todo.due_date t = Some s ->
    newDate tz legacy s = Some now ->
    In t (TodoSummary.getWeekTodos tz legacy now todos).
Proof.
  intros tz legacy now todos t s Hin Hfield Hparse.
  pose proof (mondayOffset_range tz now) as [Hoff _].
  pose proof (monday_value tz now) as Hm.
  pose proof (sunday_value tz now) as Hs.
  assert (Hnow : localDay tz now * msPerDay <= now + tz
                 < (localDay tz now + 1) * msPerDay).
  { unfold localDay.
    pose proof (Z.div_mod (now + tz) msPerDay ltac:(discriminate)).
    pose proof (Z.mod_pos_bound (now + tz) msPerDay ltac:(reflexivity)).
    lia. }
  assert (W : TodoSummary.withinWeek tz legacy now (Some s) = true).
  { apply (proj2 (@withinWeek_withinRange tz legacy now _ (Some s) Hm Hs)).
    exists s, now. repeat split; auto; unfold msPerDay in *; lia. }
  unfold TodoSummary.getWeekTodos. apply filter_In. split; [exact Hin|].
  unfold TodoSummary.isCreatedThisWeek, TodoSummary.isDueThisWeek.
  destruct Hfield as [-> | ->]; rewrite W;
    [reflexivity | apply orb_true_r].
Qed.

Lemma getWeekTodos_holds_now_witness :
  In createdJustNow
     (TodoSummary.getWeekTodos kst noLegacyParse sampleNow [createdJustNow]).
Proof.
  apply (@getWeekTodos_holds_now kst noLegacyParse sampleNow [createdJustNow]
           createdJustNow (lit "2026-01-03T16:00:00+00:00")
           (or_introl eq_refl) (or_introl eq_refl)).
  vm_compute. reflexivity.
Defined.
